(** * The fetch-cache-classify pipeline of youtube-transcript-mcp

    A shallow embedding of [src/tools/transcript.ts]: the tool handler
    [getTranscriptHandler] (error-flag convention) and the library function
    [getTranscript] (throwing convention), together with the collaborators
    they call, and the properties of the pipeline proved about them. *)

From Stdlib Require Import String Ascii List Bool.
From stdpp Require Import base option gmap strings list.

Local Open Scope string_scope.
Local Open Scope list_scope.

(** ** JavaScript values used by the pipeline *)

(** A thrown value or a promise rejection: an [Error] object, of which the
    code reads [name] and [message]. *)
Record JsError := mkError { name : string; message : string }.

(** [new Error(msg)] *)
Definition newError (msg : string) : JsError :=
  {| name := "Error"; message := msg |}.

(** How a call ends: it hands back a value or it throws. For an awaited
    promise, [Returned] is fulfilment and [Thrown] is rejection; a promise
    that never settles is outside the model. *)
Inductive Outcome (A : Type) : Type :=
| Returned (a : A)
| Thrown (e : JsError).
Arguments Returned {A} a.
Arguments Thrown {A} e.

(** How a promise that nobody awaits settles. The counters of
    [../utils/cache] and the failure log of [../utils/analytics] are
    asynchronous operations: every call site takes their promise and attaches
    a rejection handler to it, so a failure of theirs is a rejection. *)
Inductive Settled : Type :=
| Fulfilled
| Rejected (e : JsError).

(** [s.startsWith(p)] and [s.includes(p)] *)
Definition startsWith (s p : string) : bool := String.prefix p s.

Fixpoint includes (s p : string) : bool :=
  startsWith s p ||
  match s with
  | EmptyString => false
  | String _ rest => includes rest p
  end.

(** ** The tool result of the handler *)

Record ContentItem := { type : string; text : string }.
Record ToolResult := { content : list ContentItem; isError : bool }.

Record Input := { url : string; language : option string }.

(** ** What a run does to the outside world *)

Inductive Level : Type := Log | Warn | Error.

Inductive Event : Type :=
| Console (lvl : Level) (msg : string)
| TrackDaily
| IncrementVideo (videoId : string)
| CacheRead (videoId lang : string)
| Fetch (videoId lang : string)
| CacheWrite (videoId lang txt : string) (isErr : bool)
| AnalyticsLog (videoId : string) (success : bool) (errorName : string).

(** The result store, keyed by (video identifier, language). *)
Abbreviation Store := (gmap (string * string) string).

(** [store]: the result store; [trace]: what the awaited path did, in order;
    [background]: what the rejection handlers of the detached promises print,
    whose position relative to the awaited path is not fixed. *)
Record World := {
  store : Store;
  trace : list Event;
  background : list string;
}.

Definition init (s : Store) : World :=
  {| store := s; trace := []; background := [] |}.

(** ** State and exceptions *)

Definition M (A : Type) : Type := World -> Outcome A * World.

Definition ret {A} (a : A) : M A := fun w => (Returned a, w).

Definition throw {A} (e : JsError) : M A := fun w => (Thrown e, w).

Definition bind {A B} (m : M A) (k : A -> M B) : M B :=
  fun w =>
    match m w with
    | (Returned a, w') => k a w'
    | (Thrown e, w') => (Thrown e, w')
    end.

(** [try { body } catch (e) { handler e }] *)
Definition tryCatch {A} (body : M A) (handler : JsError -> M A) : M A :=
  fun w =>
    match body w with
    | (Returned a, w') => (Returned a, w')
    | (Thrown e, w') => handler e w'
    end.

(** A synchronous call of an imported function. *)
Definition call {A} (o : Outcome A) : M A := fun w => (o, w).

Definition emit (ev : Event) : M unit :=
  fun w => (Returned tt,
            {| store := store w; trace := trace w ++ [ev];
               background := background w |}).

Definition console (lvl : Level) (msg : string) : M unit :=
  emit (Console lvl msg).

(** [f(...).catch(onRejected)]: nothing is awaited; a rejection is handed
    to [onRejected], which prints one line. *)
Definition fireAndForget (ev : Event) (p : Settled)
    (onRejected : JsError -> string) : M unit :=
  bind (emit ev) (fun _ w =>
    match p with
    | Fulfilled => (Returned tt, w)
    | Rejected e =>
        (Returned tt,
         {| store := store w; trace := trace w;
            background := background w ++ [onRejected e] |})
    end).

Declare Scope js_scope.
Delimit Scope js_scope with js.
Notation "'let*' x ':=' m 'in' k" := (bind m (fun x => k))
  (at level 10, x pattern, m at level 100, k at level 200) : js_scope.
Notation "m '>>' k" := (bind m (fun _ => k))
  (at level 190, right associativity) : js_scope.
Local Open Scope js_scope.

(** ** Collaborators *)

(** [../utils/url-normalize]: pure string functions; the pipeline only sees
    what they return, or that they throw. *)
Class UrlNormalize := {
  isValidYouTubeUrl : string -> Outcome bool;
  normalizeYouTubeUrl : string -> Outcome string;
  extractVideoId : string -> Outcome (option string);
}.

(** [../lib/youtube]: the upstream fetch, awaited inside [try], so that a
    throw and a rejection are the same [Thrown]; and the error classifier,
    a pure total function from the raw fault to the presentable string. *)
Class YouTube := {
  youtubeTranscript : string -> string -> Outcome string;
  handleYouTubeErrors : JsError -> string;
}.

(** The worker environment [env]: which bindings are present (only their
    truthiness is read), and how the services behind it behave during the
    request. *)
Record Env := {
  TRANSCRIPT_KV : bool;
  TRANSCRIPT_CACHE : bool;
  readFault : string -> string -> option JsError;
  writeFault : string -> string -> string -> bool -> option JsError;
  dailyCounter : Settled;
  videoCounter : string -> Settled;
  analyticsSink : string -> bool -> string -> Settled;
}.

(** Modelled from the spec: [getCachedTranscript] of [../utils/cache] is not
    part of the sources. Section 4.2: [get(id, lang) -> text | absent] is a
    side-effect-free read of the stored outcome, and it can raise a
    storage-layer fault. *)
Definition getCachedTranscript (env : Env) (videoId lang : string)
    : M (option string) :=
  emit (CacheRead videoId lang) >>
  fun w =>
    match readFault env videoId lang with
    | Some e => (Thrown e, w)
    | None => (Returned (store w !! (videoId, lang)), w)
    end.

(** Modelled from the spec: [setCachedTranscript] of [../utils/cache] is not
    part of the sources. Section 4.2: [set(id, lang, text, isError)] persists
    the outcome under the key; [isError] only selects the retention, which
    is not modelled; the write can raise a storage-layer fault, and then
    nothing is stored. *)
Definition setCachedTranscript (env : Env) (videoId lang txt : string)
    (isErr : bool) : M unit :=
  emit (CacheWrite videoId lang txt isErr) >>
  fun w =>
    match writeFault env videoId lang txt isErr with
    | Some e => (Thrown e, w)
    | None =>
        (Returned tt,
         {| store := <[(videoId, lang) := txt]> (store w);
            trace := trace w; background := background w |})
    end.

(** The counters of [../utils/cache] and the failure log of
    [../utils/analytics]: always called detached. *)
Definition trackDailyRequests (env : Env) : Event * Settled :=
  (TrackDaily, dailyCounter env).

Definition incrementVideoRequestCount (env : Env) (videoId : string)
    : Event * Settled :=
  (IncrementVideo videoId, videoCounter env videoId).

Definition logAnalyticsError (env : Env) (videoId : string) (success : bool)
    (errorName : string) : Event * Settled :=
  (AnalyticsLog videoId success errorName,
   analyticsSink env videoId success errorName).

(** [f(...).catch(onRejected)] *)
Definition catch_ (c : Event * Settled) (onRejected : JsError -> string)
    : M unit :=
  fireAndForget (fst c) (snd c) onRejected.

Section Pipeline.
Context `{UrlNormalize} `{YouTube}.

Definition fetchTranscriptFromYouTube (videoId lang : string) : M string :=
  emit (Fetch videoId lang) >> call (youtubeTranscript videoId lang).

(** *** [getTranscriptHandler] *)

Definition isLikelyError (cachedData : string) : bool :=
  startsWith cachedData "Error:" ||
  startsWith cachedData "No transcript" ||
  startsWith cachedData "Service temporarily busy" ||
  startsWith cachedData "Video not found".

Definition textResult (t : string) (err : bool) : ToolResult :=
  {| content := [ {| type := "text"; text := t |} ]; isError := err |}.

Definition getTranscriptHandler (input : Input) (env : Env) : M ToolResult :=
  let url := url input in
  let language := default "en" (language input) in
  let* valid := call (isValidYouTubeUrl url) in
  if negb valid then
    ret (textResult "Error: Invalid YouTube URL provided." true)
  else
  let* normalizedUrl := call (normalizeYouTubeUrl url) in
  let* videoId := call (extractVideoId normalizedUrl) in
  match videoId with
  | None | Some "" =>
      ret (textResult "Error: Could not extract video ID from the URL." true)
  | Some videoId =>
  (if TRANSCRIPT_KV env then
     catch_ (trackDailyRequests env) message >>
     catch_ (incrementVideoRequestCount env videoId) message
   else ret tt) >>
  let* hit :=
    tryCatch
      (let* cachedData := getCachedTranscript env videoId language in
       match cachedData with
       | None | Some "" => ret None
       | Some cachedData =>
           console Log ("Cache hit for " +:+ videoId +:+ " (lang: "
                        +:+ language +:+ ")") >>
           ret (Some (textResult cachedData (isLikelyError cachedData)))
       end)
      (fun cacheError =>
         console Error ("Cache read error for " +:+ videoId +:+ ": "
                        +:+ message cacheError) >>
         ret None) in
  match hit with
  | Some result => ret result
  | None =>
  console Log ("Cache miss for " +:+ videoId +:+ " (lang: " +:+ language
               +:+ "). Fetching from YouTube...") >>
  let* fetched :=
    tryCatch
      (let* transcriptText := fetchTranscriptFromYouTube videoId language in
       ret (transcriptText, false))
      (fun error =>
         console Error ("Fetching transcript for " +:+ videoId
                        +:+ " failed: " +:+ message error) >>
         ret (handleYouTubeErrors error, true)) in
  let transcriptText := fst fetched in
  let fetchError := snd fetched in
  tryCatch
    (setCachedTranscript env videoId language transcriptText fetchError)
    (fun cacheError =>
       console Error ("Cache write error for " +:+ videoId +:+ ": "
                      +:+ message cacheError)) >>
  ret (textResult transcriptText fetchError)
  end
  end.

(** *** [getTranscript] *)

Definition isCachedError (cachedData : string) : bool :=
  startsWith cachedData "Error:" ||
  includes cachedData "No transcript available" ||
  includes cachedData "Service temporarily busy" ||
  includes cachedData "Video not found or private" ||
  includes cachedData "Transcripts are disabled".

(** [(error.name && error.name !== 'Error') ? error.name : 'FetchError'] *)
Definition analyticsErrorName (error : JsError) : string :=
  match name error with
  | "" => "FetchError"
  | n => if String.eqb n "Error" then "FetchError" else n
  end.

Definition getTranscript (url : string) (env : Env) (language : option string)
    : M string :=
  let language := default "en" language in
  let* valid := call (isValidYouTubeUrl url) in
  if negb valid then throw (newError "Invalid YouTube URL provided.") else
  let* normalizedUrl := call (normalizeYouTubeUrl url) in
  let* videoId := call (extractVideoId normalizedUrl) in
  match videoId with
  | None | Some "" =>
      throw (newError "Could not extract video ID from the URL.")
  | Some videoId =>
  (if TRANSCRIPT_CACHE env then
     catch_ (trackDailyRequests env)
       (fun err => "Failed to track daily requests: " +:+ message err) >>
     catch_ (incrementVideoRequestCount env videoId)
       (fun err => "Failed to increment video request count: "
                   +:+ message err)
   else
     console Warn
       "TRANSCRIPT_CACHE not available for analytics tracking in getTranscript.")
  >>
  let* hit :=
    tryCatch
      (let* cachedData := getCachedTranscript env videoId language in
       match cachedData with
       | None | Some "" => ret None
       | Some cachedData =>
           console Log ("Cache hit for " +:+ videoId +:+ " (lang: "
                        +:+ language +:+ ")") >>
           if isCachedError cachedData then throw (newError cachedData)
           else ret (Some cachedData)
       end)
      (fun cacheError =>
         if startsWith (message cacheError) "Error:" then throw cacheError
         else
           console Error ("Cache read error for " +:+ videoId +:+ " (lang: "
                          +:+ language +:+ "): " +:+ message cacheError
                          +:+ ". Proceeding to fetch.") >>
           ret None) in
  match hit with
  | Some cachedData => ret cachedData
  | None =>
  console Log ("Cache miss for " +:+ videoId +:+ " (lang: " +:+ language
               +:+ "). Fetching from YouTube...") >>
  let* fetched :=
    tryCatch
      (let* transcriptText := fetchTranscriptFromYouTube videoId language in
       ret (transcriptText, true))
      (fun error =>
         console Error ("Fetching transcript for " +:+ videoId +:+ " (lang: "
                        +:+ language +:+ ") failed: " +:+ message error) >>
         let transcriptText := handleYouTubeErrors error in
         (if TRANSCRIPT_CACHE env then
            catch_ (logAnalyticsError env videoId false
                      (analyticsErrorName error))
              (fun err => "Failed to log analytics error: " +:+ message err)
          else ret tt) >>
         ret (transcriptText, false)) in
  let transcriptText := fst fetched in
  let fetchWasSuccessful := snd fetched in
  (if TRANSCRIPT_CACHE env then
     tryCatch
       (setCachedTranscript env videoId language transcriptText
          (negb fetchWasSuccessful))
       (fun cacheWriteError =>
          console Error ("Cache write error for " +:+ videoId +:+ " (lang: "
                         +:+ language +:+ "): " +:+ message cacheWriteError))
   else ret tt) >>
  if negb fetchWasSuccessful then throw (newError transcriptText)
  else ret transcriptText
  end
  end.

End Pipeline.

(** ** Observations on a run *)

Definition fetches (tr : list Event) : list (string * string) :=
  omap (fun ev => match ev with
                  | Fetch videoId lang => Some (videoId, lang)
                  | _ => None
                  end) tr.

Definition cacheWrites (tr : list Event)
    : list (string * string * string * bool) :=
  omap (fun ev => match ev with
                  | CacheWrite videoId lang txt isErr =>
                      Some (videoId, lang, txt, isErr)
                  | _ => None
                  end) tr.

(** Everything except console output. *)
Definition isEffect (ev : Event) : bool :=
  match ev with Console _ _ => false | _ => true end.

Definition effects (tr : list Event) : list Event := List.filter isEffect tr.

(** The counter calls made before the lookup when the binding is there. *)
Definition counted (binding : bool) (videoId : string) : list Event :=
  if binding then [TrackDaily; IncrementVideo videoId] else [].

(** ** A concrete URL identifier *)

Module SpecUrl.

Definition canonical : string := "https://www.youtube.com/watch?v=".

Fixpoint stripPrefix (p s : string) : option string :=
  match p, s with
  | EmptyString, _ => Some s
  | String a p', String b s' =>
      if Ascii.eqb a b then stripPrefix p' s' else None
  | String _ _, EmptyString => None
  end.

Definition isDelimiter (c : ascii) : bool :=
  Ascii.eqb c "?" || Ascii.eqb c "&" || Ascii.eqb c "#" || Ascii.eqb c "/".

Fixpoint token (s : string) : string :=
  match s with
  | EmptyString => EmptyString
  | String c rest => if isDelimiter c then EmptyString
                     else String c (token rest)
  end.

Definition forms : list string :=
  [ "https://youtu.be/"; "https://www.youtube.com/embed/"; canonical;
    "https://youtube.com/watch?v="; "https://m.youtube.com/watch?v=" ].

Fixpoint identifier (fs : list string) (u : string) : option string :=
  match fs with
  | [] => None
  | f :: fs' =>
      match stripPrefix f u with
      | Some rest => Some (token rest)
      | None => identifier fs' u
      end
  end.

Definition isValid (u : string) : bool :=
  match identifier forms u with
  | None | Some "" => false
  | Some _ => true
  end.

Definition normalize (u : string) : string :=
  match identifier forms u with
  | Some id => canonical +:+ id
  | None => u
  end.

Definition extractId (u : string) : option string :=
  match stripPrefix canonical u with
  | Some "" | None => None
  | Some id => Some (token id)
  end.

(** Modelled from the spec: the module [../utils/url-normalize] is not part
    of the sources. Section 4.1: [isValid] is a structural check of
    recognized host and path patterns, [normalize] rewrites the known
    alternate forms (short links, embed links, query-parameter variants)
    into one canonical shape, and [extractId] pulls the identifier token
    from the canonical form. None of them throws. *)
#[export] Instance urlNormalize : UrlNormalize := {|
  isValidYouTubeUrl u := Returned (isValid u);
  normalizeYouTubeUrl u := Returned (normalize u);
  extractVideoId u := Returned (extractId u);
|}.

End SpecUrl.

(** ** Requests and cache states *)

Definition withReadFault (env : Env) (f : string -> string -> option JsError)
    : Env :=
  {| TRANSCRIPT_KV := TRANSCRIPT_KV env;
     TRANSCRIPT_CACHE := TRANSCRIPT_CACHE env;
     readFault := f;
     writeFault := writeFault env;
     dailyCounter := dailyCounter env;
     videoCounter := videoCounter env;
     analyticsSink := analyticsSink env |}.

Definition withWriteFault (env : Env)
    (f : string -> string -> string -> bool -> option JsError) : Env :=
  {| TRANSCRIPT_KV := TRANSCRIPT_KV env;
     TRANSCRIPT_CACHE := TRANSCRIPT_CACHE env;
     readFault := readFault env;
     writeFault := f;
     dailyCounter := dailyCounter env;
     videoCounter := videoCounter env;
     analyticsSink := analyticsSink env |}.

Definition withCounters (env : Env) (daily : Settled)
    (perVideo : string -> Settled) : Env :=
  {| TRANSCRIPT_KV := TRANSCRIPT_KV env;
     TRANSCRIPT_CACHE := TRANSCRIPT_CACHE env;
     readFault := readFault env;
     writeFault := writeFault env;
     dailyCounter := daily;
     videoCounter := perVideo;
     analyticsSink := analyticsSink env |}.

(** What the caller of the handler sees as a failure carrying [t], and as
    a success carrying [t]. *)
Definition flagged (t : string) : Outcome ToolResult :=
  Returned (textResult t true).

Definition unflagged (t : string) : Outcome ToolResult :=
  Returned (textResult t false).

(** [getTranscript] threw an error whose message is [t]. *)
Definition throwsMessage (o : Outcome string) (t : string) : Prop :=
  exists e, o = Thrown e /\ message e = t.

Definition outcome {A} (r : Outcome A * World) : Outcome A := fst r.
Definition final {A} (r : Outcome A * World) : World := snd r.

Section Requests.
Context `{UrlNormalize} `{YouTube}.

(** The URL is accepted and the identifier [id] is derived from it. *)
Definition identifies (u id : string) : Prop :=
  isValidYouTubeUrl u = Returned true /\
  exists n, normalizeYouTubeUrl u = Returned n /\
            extractVideoId n = Returned (Some id) /\ id <> "".

(** The request is one for the key [(id, lang)]. *)
Definition requestFor (input : Input) (id lang : string) : Prop :=
  identifies (url input) id /\ default "en" (language input) = lang.

(** The lookup of [(id, lang)] finds [c]. *)
Definition cacheHolds (env : Env) (s : Store) (id lang c : string) : Prop :=
  readFault env id lang = None /\ s !! (id, lang) = Some c.

(** The lookup of [(id, lang)] finds nothing the code takes for a value:
    the key is absent, or it holds the empty string. *)
Definition cacheMisses (env : Env) (s : Store) (id lang : string) : Prop :=
  readFault env id lang = None /\
  (s !! (id, lang) = None \/ s !! (id, lang) = Some "").

(** What one fetch attempt leaves the pipeline with: the text and whether
    it is a classified error. *)
Definition fetched (id lang : string) : string * bool :=
  match youtubeTranscript id lang with
  | Returned t => (t, false)
  | Thrown e => (handleYouTubeErrors e, true)
  end.

(** The lookups after which [getTranscriptHandler] goes on to fetch: any
    read fault, an absent key, an empty string. *)
Definition handlerFetches (env : Env) (s : Store) (id lang : string) : bool :=
  match readFault env id lang with
  | Some _ => true
  | None =>
      match s !! (id, lang) with
      | None | Some "" => true
      | Some _ => false
      end
  end.

(** The lookups after which [getTranscript] goes on to fetch: a read fault
    whose message does not start with the marker, an absent key, an empty
    string, and a cached error text that does not start with the marker. *)
Definition getTranscriptFetches (env : Env) (s : Store) (id lang : string)
    : bool :=
  match readFault env id lang with
  | Some e => negb (startsWith (message e) "Error:")
  | None =>
      match s !! (id, lang) with
      | None | Some "" => true
      | Some c => isCachedError c && negb (startsWith c "Error:")
      end
  end.

(** The detached failure log of [getTranscript]: called only when the fetch
    failed and the [TRANSCRIPT_CACHE] binding is there. *)
Definition failureLogged (env : Env) (id lang : string) : list Event :=
  match youtubeTranscript id lang with
  | Thrown e =>
      if TRANSCRIPT_CACHE env
      then [AnalyticsLog id false (analyticsErrorName e)] else []
  | Returned _ => []
  end.

(** None of the URL utilities throws in the request for [u]: the
    validation returns and, when it accepts [u], so do the normalization of
    [u] and the extraction from what it gives. *)
Definition urlUtilitiesReturnFor (u : string) : Prop :=
  exists valid, isValidYouTubeUrl u = Returned valid /\
    (valid = true ->
     exists n, normalizeYouTubeUrl u = Returned n /\
               exists v, extractVideoId n = Returned v).

End Requests.

(** ** Comparing the two conventions *)

(** The two conventions report the same thing. *)
Definition agree (h : Outcome ToolResult) (g : Outcome string) : Prop :=
  forall t, (h = unflagged t <-> g = Returned t) /\
            (h = flagged t <-> throwsMessage g t).

(** The lookups on which the two conventions are compared: a miss, a read
    fault without the marker, a cached string with the marker, or a cached
    string that neither function takes for an error. *)
Definition comparableLookup (env : Env) (s : Store) (id lang : string)
    : bool :=
  match readFault env id lang with
  | Some e => negb (startsWith (message e) "Error:")
  | None =>
      match s !! (id, lang) with
      | None | Some "" => true
      | Some c =>
          startsWith c "Error:"
          || (negb (isLikelyError c) && negb (isCachedError c))
      end
  end.

(** ** Relating two runs *)

(** Two worlds with the same store and the same trace of the awaited path;
    the background log is left free. *)
Definition sameForeground (w1 w2 : World) : Prop :=
  store w1 = store w2 /\ trace w1 = trace w2.

(** Two computations that, from worlds with the same foreground, end the
    same way in worlds with the same foreground. *)
Definition related {A} (m1 m2 : M A) : Prop :=
  forall w1 w2, sameForeground w1 w2 ->
    outcome (m1 w1) = outcome (m2 w2) /\
    sameForeground (final (m1 w1)) (final (m2 w2)).

(** ** The shape of a tool result *)



(** ** The pipeline over caught values of any kind

    The [catch] blocks of the source bind their value as [any] and read
    [.message] from it. Above, a caught value is always an [Error] object;
    here it can also be [null], [undefined], or a value whose [message] is
    not a string, and reading from it can itself throw. *)

Module Any.

(** What a [catch] block can receive. For [Other], the value's [message]
    is not a string and [messageText] is what a template literal makes of
    it: ["undefined"] for a thrown string or an object without one. For
    [Unprintable], the [message] cannot be converted to a string at all: it
    is a [Symbol]. *)
Inductive JsValue : Type :=
| Null
| Undefined
| ErrorObject (e : JsError)
| Other (messageText : string)
| Unprintable.


Inductive Result (A : Type) : Type :=
| Ret (a : A)
| Thr (v : JsValue).
Arguments Ret {A} a.
Arguments Thr {A} v.

Definition Task (A : Type) : Type := World -> Result A * World.

Definition done {A} (a : A) : Task A := fun w => (Ret a, w).

Definition raise {A} (v : JsValue) : Task A := fun w => (Thr v, w).

Definition next {A B} (m : Task A) (k : A -> Task B) : Task B :=
  fun w =>
    match m w with
    | (Ret a, w') => k a w'
    | (Thr v, w') => (Thr v, w')
    end.

(** [try { body } catch (v) { handler v }] *)
Definition attempt {A} (body : Task A) (handler : JsValue -> Task A)
    : Task A :=
  fun w =>
    match body w with
    | (Ret a, w') => (Ret a, w')
    | (Thr v, w') => handler v w'
    end.

Definition liftOutcome {A} (o : Outcome A) : Result A :=
  match o with
  | Returned a => Ret a
  | Thrown e => Thr (ErrorObject e)
  end.

(** A computation of the first model, whose exceptions are [Error]
    objects. *)
Definition lift {A} (m : M A) : Task A :=
  fun w => (liftOutcome (fst (m w)), snd (m w)).

Declare Scope any_scope.
Notation "'let*' x ':=' m 'in' k" := (next m (fun x => k))
  (at level 10, x pattern, m at level 100, k at level 200) : any_scope.
Notation "m '>>' k" := (next m (fun _ => k))
  (at level 190, right associativity) : any_scope.
Local Open Scope any_scope.

(** The [TypeError] of the engine, with the text V8 gives it. *)
Definition typeError (text : string) : JsValue :=
  ErrorObject {| name := "TypeError"; message := text |}.

Definition readingOfNull : string :=
  "Cannot read properties of null (reading 'message')".

Definition readingOfUndefined : string :=
  "Cannot read properties of undefined (reading 'message')".

(** [v.message] inside a template literal: reading a property of [null] or
    [undefined] throws, and so does the conversion of a [Symbol]. *)
Definition messageOf (v : JsValue) : Task string :=
  match v with
  | Null => raise (typeError readingOfNull)
  | Undefined => raise (typeError readingOfUndefined)
  | ErrorObject e => done (message e)
  | Other messageText => done messageText
  | Unprintable =>
      raise (typeError "Cannot convert a Symbol value to a string")
  end.

(** [v.message.startsWith(p)]: it also throws when [message] is not a
    string. *)
Definition messageStartsWith (v : JsValue) (p : string) : Task bool :=
  match v with
  | Null => raise (typeError readingOfNull)
  | Undefined => raise (typeError readingOfUndefined)
  | ErrorObject e => done (startsWith (message e) p)
  | Other messageText =>
      if String.eqb messageText "undefined" || String.eqb messageText "null"
      then raise (typeError ("Cannot read properties of " +:+ messageText
                             +:+ " (reading 'startsWith')"))
      else raise (typeError "cacheError.message.startsWith is not a function")
  | Unprintable =>
      raise (typeError "cacheError.message.startsWith is not a function")
  end.

(** [(error.name && error.name !== 'Error') ? error.name : 'FetchError'],
    reached only after [error.message] was read. *)
Definition errorNameOf (v : JsValue) : string :=
  match v with
  | ErrorObject e => analyticsErrorName e
  | Null | Undefined | Other _ | Unprintable => "FetchError"
  end.

(** [../lib/youtube], with a fetch that can fail with any value and a
    classifier that is handed that value. *)
Class YouTube := {
  youtubeTranscript : string -> string -> Result string;
  handleYouTubeErrors : JsValue -> string;
}.

(** The worker environment, with store faults of any kind. *)
Record Env := {
  TRANSCRIPT_KV : bool;
  TRANSCRIPT_CACHE : bool;
  readFault : string -> string -> option JsValue;
  writeFault : string -> string -> string -> bool -> option JsValue;
  dailyCounter : Settled;
  videoCounter : string -> Settled;
  analyticsSink : string -> bool -> string -> Settled;
}.

(** Modelled from the spec: as [getCachedTranscript] above, with a fault of
    any kind. *)
Definition getCachedTranscript (env : Env) (videoId lang : string)
    : Task (option string) :=
  lift (emit (CacheRead videoId lang)) >>
  fun w =>
    match readFault env videoId lang with
    | Some v => (Thr v, w)
    | None => (Ret (store w !! (videoId, lang)), w)
    end.

(** Modelled from the spec: as [setCachedTranscript] above, with a fault of
    any kind. *)
Definition setCachedTranscript (env : Env) (videoId lang txt : string)
    (isErr : bool) : Task unit :=
  lift (emit (CacheWrite videoId lang txt isErr)) >>
  fun w =>
    match writeFault env videoId lang txt isErr with
    | Some v => (Thr v, w)
    | None =>
        (Ret tt,
         {| store := <[(videoId, lang) := txt]> (store w);
            trace := trace w; background := background w |})
    end.

Definition trackDailyRequests (env : Env) : Event * Settled :=
  (TrackDaily, dailyCounter env).

Definition incrementVideoRequestCount (env : Env) (videoId : string)
    : Event * Settled :=
  (IncrementVideo videoId, videoCounter env videoId).

Definition logAnalyticsError (env : Env) (videoId : string) (success : bool)
    (errorName : string) : Event * Settled :=
  (AnalyticsLog videoId success errorName,
   analyticsSink env videoId success errorName).

Section Pipeline.
Context `{UrlNormalize} `{YouTube}.

Definition fetchTranscriptFromYouTube (videoId lang : string) : Task string :=
  lift (emit (Fetch videoId lang)) >>
  fun w => (youtubeTranscript videoId lang, w).

Definition getTranscriptHandler (input : Input) (env : Env)
    : Task ToolResult :=
  let url := url input in
  let language := default "en" (language input) in
  let* valid := lift (call (isValidYouTubeUrl url)) in
  if negb valid then
    done (textResult "Error: Invalid YouTube URL provided." true)
  else
  let* normalizedUrl := lift (call (normalizeYouTubeUrl url)) in
  let* videoId := lift (call (extractVideoId normalizedUrl)) in
  match videoId with
  | None | Some "" =>
      done (textResult "Error: Could not extract video ID from the URL." true)
  | Some videoId =>
  (if TRANSCRIPT_KV env then
     lift (catch_ (trackDailyRequests env) message) >>
     lift (catch_ (incrementVideoRequestCount env videoId) message)
   else done tt) >>
  let* hit :=
    attempt
      (let* cachedData := getCachedTranscript env videoId language in
       match cachedData with
       | None | Some "" => done None
       | Some cachedData =>
           lift (console Log ("Cache hit for " +:+ videoId +:+ " (lang: "
                              +:+ language +:+ ")")) >>
           done (Some (textResult cachedData (isLikelyError cachedData)))
       end)
      (fun cacheError =>
         let* msg := messageOf cacheError in
         lift (console Error ("Cache read error for " +:+ videoId +:+ ": "
                              +:+ msg)) >>
         done None) in
  match hit with
  | Some result => done result
  | None =>
  lift (console Log ("Cache miss for " +:+ videoId +:+ " (lang: "
                     +:+ language +:+ "). Fetching from YouTube...")) >>
  let* fetched :=
    attempt
      (let* transcriptText := fetchTranscriptFromYouTube videoId language in
       done (transcriptText, false))
      (fun error =>
         let* msg := messageOf error in
         lift (console Error ("Fetching transcript for " +:+ videoId
                              +:+ " failed: " +:+ msg)) >>
         done (handleYouTubeErrors error, true)) in
  let transcriptText := fst fetched in
  let fetchError := snd fetched in
  attempt
    (setCachedTranscript env videoId language transcriptText fetchError)
    (fun cacheError =>
       let* msg := messageOf cacheError in
       lift (console Error ("Cache write error for " +:+ videoId +:+ ": "
                            +:+ msg))) >>
  done (textResult transcriptText fetchError)
  end
  end.

Definition getTranscript (url : string) (env : Env) (language : option string)
    : Task string :=
  let language := default "en" language in
  let* valid := lift (call (isValidYouTubeUrl url)) in
  if negb valid then
    raise (ErrorObject (newError "Invalid YouTube URL provided."))
  else
  let* normalizedUrl := lift (call (normalizeYouTubeUrl url)) in
  let* videoId := lift (call (extractVideoId normalizedUrl)) in
  match videoId with
  | None | Some "" =>
      raise (ErrorObject
               (newError "Could not extract video ID from the URL."))
  | Some videoId =>
  (if TRANSCRIPT_CACHE env then
     lift (catch_ (trackDailyRequests env)
             (fun err => "Failed to track daily requests: "
                         +:+ message err)) >>
     lift (catch_ (incrementVideoRequestCount env videoId)
             (fun err => "Failed to increment video request count: "
                         +:+ message err))
   else
     lift (console Warn
       "TRANSCRIPT_CACHE not available for analytics tracking in getTranscript."))
  >>
  let* hit :=
    attempt
      (let* cachedData := getCachedTranscript env videoId language in
       match cachedData with
       | None | Some "" => done None
       | Some cachedData =>
           lift (console Log ("Cache hit for " +:+ videoId +:+ " (lang: "
                              +:+ language +:+ ")")) >>
           if isCachedError cachedData
           then raise (ErrorObject (newError cachedData))
           else done (Some cachedData)
       end)
      (fun cacheError =>
         let* marked := messageStartsWith cacheError "Error:" in
         if marked then raise cacheError
         else
           let* msg := messageOf cacheError in
           lift (console Error ("Cache read error for " +:+ videoId
                                +:+ " (lang: " +:+ language +:+ "): " +:+ msg
                                +:+ ". Proceeding to fetch.")) >>
           done None) in
  match hit with
  | Some cachedData => done cachedData
  | None =>
  lift (console Log ("Cache miss for " +:+ videoId +:+ " (lang: "
                     +:+ language +:+ "). Fetching from YouTube...")) >>
  let* fetched :=
    attempt
      (let* transcriptText := fetchTranscriptFromYouTube videoId language in
       done (transcriptText, true))
      (fun error =>
         let* msg := messageOf error in
         lift (console Error ("Fetching transcript for " +:+ videoId
                              +:+ " (lang: " +:+ language +:+ ") failed: "
                              +:+ msg)) >>
         let transcriptText := handleYouTubeErrors error in
         (if TRANSCRIPT_CACHE env then
            lift (catch_ (logAnalyticsError env videoId false
                            (errorNameOf error))
                    (fun err => "Failed to log analytics error: "
                                +:+ message err))
          else done tt) >>
         done (transcriptText, false)) in
  let transcriptText := fst fetched in
  let fetchWasSuccessful := snd fetched in
  (if TRANSCRIPT_CACHE env then
     attempt
       (setCachedTranscript env videoId language transcriptText
          (negb fetchWasSuccessful))
       (fun cacheWriteError =>
          let* msg := messageOf cacheWriteError in
          lift (console Error ("Cache write error for " +:+ videoId
                               +:+ " (lang: " +:+ language +:+ "): " +:+ msg)))
   else done tt) >>
  if negb fetchWasSuccessful
  then raise (ErrorObject (newError transcriptText))
  else done transcriptText
  end
  end.


End Pipeline.




End Any.

(** The first model inside the second: an environment and an upstream all
    of whose faults are [Error] objects. *)
Definition anyEnv (env : Env) : Any.Env :=
  {| Any.TRANSCRIPT_KV := TRANSCRIPT_KV env;
     Any.TRANSCRIPT_CACHE := TRANSCRIPT_CACHE env;
     Any.readFault id lang := Any.ErrorObject <$> readFault env id lang;
     Any.writeFault id lang txt isErr :=
       Any.ErrorObject <$> writeFault env id lang txt isErr;
     Any.dailyCounter := dailyCounter env;
     Any.videoCounter := videoCounter env;
     Any.analyticsSink := analyticsSink env |}.

(** [classify] is handed a value of any kind; on [Error] objects it is the
    classifier of the first model. *)
Definition anyYouTube (Y : YouTube) (classify : Any.JsValue -> string)
    : Any.YouTube :=
  {| Any.youtubeTranscript id lang :=
       Any.liftOutcome (youtubeTranscript id lang);
     Any.handleYouTubeErrors v :=
       match v with
       | Any.ErrorObject e => handleYouTubeErrors e
       | _ => classify v
       end |}.

(** The second computation is the first one, its exceptions seen as
    values. *)
Definition simulates {A} (m : M A) (m' : Any.Task A) : Prop :=
  forall w, m' w = Any.lift m w.

(** ** Concrete requests *)

Module Scenario.

(** Modelled from the spec: [handleYouTubeErrors] of [../lib/youtube] is
    not part of the sources. Section 4.5: a pure, deterministic mapping from
    the raw fault to one of a small fixed set of user-facing strings, with a
    generic fallback prefixed with the stable marker. *)
Definition classify (e : JsError) : string :=
  if String.eqb (name e) "TranscriptsDisabled"
  then "Transcripts are disabled for this video."
  else if String.eqb (name e) "NoTranscriptFound"
  then "No transcript available for this video in the requested language."
  else if String.eqb (name e) "VideoUnavailable"
  then "Video not found or private."
  else if String.eqb (name e) "TooManyRequests"
  then "Service temporarily busy, try again in a few minutes."
  else "Error: " +:+ message e.

(** An upstream that answers every fetch with [o]. *)
Definition answering (o : Outcome string) : YouTube :=
  {| youtubeTranscript _ _ := o; handleYouTubeErrors := classify |}.

Definition helloWorld : YouTube := answering (Returned "Hello world.").

Definition transcriptsDisabled : YouTube :=
  answering (Thrown {| name := "TranscriptsDisabled";
                       message := "Transcript is disabled on this video" |}).

(** A worker with both bindings, whose store and counters work. *)
Definition worker : Env :=
  {| TRANSCRIPT_KV := true;
     TRANSCRIPT_CACHE := true;
     readFault _ _ := None;
     writeFault _ _ _ _ := None;
     dailyCounter := Fulfilled;
     videoCounter _ := Fulfilled;
     analyticsSink _ _ _ := Fulfilled |}.

(** A worker without the [TRANSCRIPT_CACHE] binding. *)
Definition workerWithoutCache : Env :=
  {| TRANSCRIPT_KV := true;
     TRANSCRIPT_CACHE := false;
     readFault _ _ := None;
     writeFault _ _ _ _ := None;
     dailyCounter := Fulfilled;
     videoCounter _ := Fulfilled;
     analyticsSink _ _ _ := Fulfilled |}.

Definition shortLink : Input :=
  {| url := "https://youtu.be/abc123"; language := None |}.

Definition notAUrl : Input := {| url := "not a url"; language := None |}.

Definition key : string * string := ("abc123", "en").

Definition storeDown : JsError := newError "Error: KV GET failed".

End Scenario.

(** ** Further observations *)

(** What the rejection handler of one detached promise prints. *)
Definition rejectionLines (p : Settled) (onRejected : JsError -> string)
    : list string :=
  match p with
  | Fulfilled => []
  | Rejected e => [onRejected e]
  end.

(** What the rejection handlers of the two counters print in the handler,
    where the handler is [console.error] itself. *)
Definition handlerCounterLines (env : Env) (id : string) : list string :=
  if TRANSCRIPT_KV env
  then rejectionLines (dailyCounter env) message
       ++ rejectionLines (videoCounter env id) message
  else [].

Section UrlFailures.
Context `{UrlNormalize}.

(** The URL is accepted, but no identifier comes out of it: [extractVideoId]
    returns [null] or the empty string. *)
Definition identifierMissing (u : string) : Prop :=
  isValidYouTubeUrl u = Returned true /\
  exists n, normalizeYouTubeUrl u = Returned n /\
            (extractVideoId n = Returned None \/
             extractVideoId n = Returned (Some "")).

(** One of the URL utilities throws [e] on the way to the identifier. *)
Definition urlUtilityThrows (u : string) (e : JsError) : Prop :=
  isValidYouTubeUrl u = Thrown e \/
  (isValidYouTubeUrl u = Returned true /\
   (normalizeYouTubeUrl u = Thrown e \/
    exists n, normalizeYouTubeUrl u = Returned n /\
              extractVideoId n = Thrown e)).

End UrlFailures.

(** URL utilities for the edge cases: one that accepts every URL and
    extracts an identifier only from the canonical form, and one whose
    validation throws. *)
Module EdgeUrl.

Definition accepting : UrlNormalize :=
  {| isValidYouTubeUrl _ := Returned true;
     normalizeYouTubeUrl u := Returned u;
     extractVideoId u := Returned (SpecUrl.extractId u) |}.

Definition throwing : UrlNormalize :=
  {| isValidYouTubeUrl _ := Thrown (newError "Invalid URL");
     normalizeYouTubeUrl u := Returned u;
     extractVideoId u := Returned (SpecUrl.extractId u) |}.

(** A worker whose counter store is down. *)
Definition counterOutage : Env :=
  {| TRANSCRIPT_KV := true;
     TRANSCRIPT_CACHE := true;
     readFault _ _ := None;
     writeFault _ _ _ _ := None;
     dailyCounter := Rejected (newError "KV put failed");
     videoCounter _ := Rejected (newError "KV put failed");
     analyticsSink _ _ _ := Fulfilled |}.

(** A URL that [accepting] lets through and that has no identifier. *)
Definition noIdentifier : Input :=
  {| url := "https://example.com/"; language := None |}.

(** An upstream whose transcript begins like one of the handler's error
    phrases. *)
Definition misleadingTranscript : YouTube :=
  Scenario.answering
    (Returned "No transcript needed: the speaker reads the slides aloud.").

(** An upstream that fails with a fault the classifier has no phrase for. *)
Definition socketError : YouTube :=
  Scenario.answering (Thrown (newError "socket hang up")).

Definition otherKey : string * string := ("xyz789", "en").

End EdgeUrl.

(** Environments whose faults are not [Error] objects. *)
Module AnyScenario.

(** An upstream that answers every fetch with ["Hello world."]. *)
Definition greeting : Any.YouTube :=
  {| Any.youtubeTranscript _ _ := Any.Ret "Hello world.";
     Any.handleYouTubeErrors _ :=
       "Service temporarily busy, try again in a few minutes." |}.




(** A worker whose cache read rejects with an object whose message is a
    [Symbol]. *)
Definition symbolRead : Any.Env :=
  {| Any.TRANSCRIPT_KV := true;
     Any.TRANSCRIPT_CACHE := true;
     Any.readFault _ _ := Some Any.Unprintable;
     Any.writeFault _ _ _ _ := None;
     Any.dailyCounter := Fulfilled;
     Any.videoCounter _ := Fulfilled;
     Any.analyticsSink _ _ _ := Fulfilled |}.

(** A worker whose cache read rejects with a thrown string. *)
Definition stringRead : Any.Env :=
  {| Any.TRANSCRIPT_KV := true;
     Any.TRANSCRIPT_CACHE := true;
     Any.readFault _ _ := Some (Any.Other "undefined");
     Any.writeFault _ _ _ _ := None;
     Any.dailyCounter := Fulfilled;
     Any.videoCounter _ := Fulfilled;
     Any.analyticsSink _ _ _ := Fulfilled |}.

End AnyScenario.

(** ** Proof automation *)

Ltac unfold_js :=
  unfold getTranscriptHandler, getTranscript, fetchTranscriptFromYouTube,
    getCachedTranscript, setCachedTranscript, catch_, fireAndForget,
    trackDailyRequests, incrementVideoRequestCount, logAnalyticsError,
    console, emit, tryCatch, bind, call, ret, throw, init in *.

Ltac enter Hreq :=
  let Hv := fresh "Hvalid" in
  let n := fresh "n" in
  let Hn := fresh "Hnorm" in
  let Hx := fresh "Hextract" in
  let Hne := fresh "Hnonempty" in
  destruct Hreq as (Hv & n & Hn & Hx & Hne);
  unfold_js; cbn [url language];
  rewrite Hv; cbn [negb]; rewrite Hn, Hx;
  lazymatch type of Hne with
  | ?id <> _ =>
      let a := fresh "a" in
      let rest := fresh "rest" in
      destruct id as [| a rest]; [congruence |];
      cbv beta iota;
      set (id := String a rest) in *; clearbody id
  end.

#[local] Arguments String.append : simpl never.

Section Validation.
Context `{UrlNormalize} `{YouTube}.

(** C4: a URL that [isValidYouTubeUrl] rejects ends the request with the
    invalid-input error, flagged by the handler and thrown by
    [getTranscript], and leaves the world as it was: no event at all is
    recorded, so no cache read, no cache write and no fetch, and the store is
    unchanged. *)
Theorem invalid_url_no_effects (input : Input) (env : Env) (w : World) :
  isValidYouTubeUrl (url input) = Returned false ->
  getTranscriptHandler input env w
    = (flagged "Error: Invalid YouTube URL provided.", w) /\
  getTranscript (url input) env (language input) w
    = (Thrown (newError "Invalid YouTube URL provided."), w).
Proof.
  intros Hinvalid. unfold_js. rewrite Hinvalid. split; reflexivity.
Qed.

End Validation.

Ltac nonempty c :=
  let a := fresh "a" in
  let rest := fresh "rest" in
  destruct c as [| a rest]; [congruence |];
  cbv beta iota;
  set (c := String a rest) in *; clearbody c.

Ltac counters env id :=
  destruct (dailyCounter env), (videoCounter env id); simpl.

Section CacheHit.
Context `{UrlNormalize} `{YouTube}.

(** A non-empty cached string ends the handler's request at the lookup. *)
Lemma handler_hit (input : Input) (env : Env) (s : Store)
    (id lang c : string) :
  requestFor input id lang -> cacheHolds env s id lang c -> c <> "" ->
  let run := getTranscriptHandler input env (init s) in
  outcome run = Returned (textResult c (isLikelyError c)) /\
  store (final run) = s /\
  effects (trace (final run))
    = counted (TRANSCRIPT_KV env) id ++ [CacheRead id lang].
Proof.
  intros [Hid Hlang] [Hread Hstored] Hc run. subst run.
  enter Hid. rewrite Hlang.
  destruct (TRANSCRIPT_KV env); [counters env id |];
    simpl; rewrite Hread; simpl; rewrite Hstored;
    nonempty c; simpl; auto.
Qed.

(** A non-empty cached string that [getTranscript] does not classify as an
    error ends its request at the lookup. *)
Lemma getTranscript_hit_success (input : Input) (env : Env) (s : Store)
    (id lang c : string) :
  requestFor input id lang -> cacheHolds env s id lang c -> c <> "" ->
  isCachedError c = false ->
  let run := getTranscript (url input) env (language input) (init s) in
  outcome run = Returned c /\
  store (final run) = s /\
  effects (trace (final run))
    = counted (TRANSCRIPT_CACHE env) id ++ [CacheRead id lang].
Proof.
  intros [Hid Hlang] [Hread Hstored] Hc Hclass run. subst run.
  enter Hid. rewrite Hlang.
  destruct (TRANSCRIPT_CACHE env); [counters env id |];
    simpl; rewrite Hread; simpl; rewrite Hstored;
    nonempty c; simpl; rewrite Hclass; simpl; auto.
Qed.

(** A cached string that starts with the marker is thrown by
    [getTranscript]: the [catch] of the lookup lets it through. *)
Lemma getTranscript_hit_marked (input : Input) (env : Env) (s : Store)
    (id lang c : string) :
  requestFor input id lang -> cacheHolds env s id lang c ->
  startsWith c "Error:" = true ->
  let run := getTranscript (url input) env (language input) (init s) in
  outcome run = Thrown (newError c) /\
  store (final run) = s /\
  effects (trace (final run))
    = counted (TRANSCRIPT_CACHE env) id ++ [CacheRead id lang].
Proof.
  intros [Hid Hlang] [Hread Hstored] Hmark run. subst run.
  assert (Hc : c <> "") by (intros ->; discriminate Hmark).
  assert (Hclass : isCachedError c = true)
    by (unfold isCachedError; rewrite Hmark; reflexivity).
  enter Hid. rewrite Hlang.
  destruct (TRANSCRIPT_CACHE env); [counters env id |];
    simpl; rewrite Hread; simpl; rewrite Hstored;
    nonempty c; simpl; rewrite Hclass; simpl; rewrite Hmark; simpl; auto.
Qed.

End CacheHit.

Section CacheMiss.
Context `{UrlNormalize} `{YouTube}.

(** The fetch path of the handler: one read, one fetch, one write of what
    the fetch left, and the same text and flag handed to the caller whether
    or not the write faults. A read fault that led here was printed. *)
Lemma handler_fetch_path (input : Input) (env : Env) (s : Store)
    (id lang : string) :
  requestFor input id lang -> handlerFetches env s id lang = true ->
  let run := getTranscriptHandler input env (init s) in
  let txt := fst (fetched id lang) in
  let err := snd (fetched id lang) in
  outcome run = Returned (textResult txt err) /\
  effects (trace (final run))
    = counted (TRANSCRIPT_KV env) id
      ++ [CacheRead id lang; Fetch id lang; CacheWrite id lang txt err] /\
  store (final run)
    = match writeFault env id lang txt err with
      | Some _ => s
      | None => <[(id, lang) := txt]> s
      end /\
  (forall e, readFault env id lang = Some e ->
     In (Console Error ("Cache read error for " +:+ id +:+ ": "
                        +:+ message e))
        (trace (final run))).
Proof.
  intros [Hid Hlang] Hmiss run txt err. subst run txt err.
  unfold handlerFetches, fetched in *.
  enter Hid. rewrite Hlang.
  destruct (TRANSCRIPT_KV env); [counters env id |]; simpl.
  all: destruct (readFault env id lang) as [rf |]; simpl;
    [| destruct (s !! (id, lang)) as [c |];
       [destruct c; [| discriminate Hmiss] |]]; simpl.
  all: destruct (youtubeTranscript id lang); simpl.
  all: destruct (writeFault env id lang _ _); simpl.
  all: repeat split; try reflexivity.
  all: intros ? [= <-]; simpl; tauto.
Qed.

(** The fetch path of [getTranscript]: one read, one fetch, the failure log
    and the write only behind the [TRANSCRIPT_CACHE] guard, and the text
    returned or thrown whether or not the write faults. A read fault that
    led here was printed. *)
Lemma getTranscript_fetch_path (input : Input) (env : Env) (s : Store)
    (id lang : string) :
  requestFor input id lang -> getTranscriptFetches env s id lang = true ->
  let run := getTranscript (url input) env (language input) (init s) in
  let txt := fst (fetched id lang) in
  let err := snd (fetched id lang) in
  outcome run = (if err then Thrown (newError txt) else Returned txt) /\
  effects (trace (final run))
    = counted (TRANSCRIPT_CACHE env) id
      ++ [CacheRead id lang; Fetch id lang]
      ++ failureLogged env id lang
      ++ (if TRANSCRIPT_CACHE env then [CacheWrite id lang txt err] else []) /\
  store (final run)
    = (if TRANSCRIPT_CACHE env then
         match writeFault env id lang txt err with
         | Some _ => s
         | None => <[(id, lang) := txt]> s
         end
       else s) /\
  (forall e, readFault env id lang = Some e ->
     In (Console Error ("Cache read error for " +:+ id +:+ " (lang: "
                        +:+ lang +:+ "): " +:+ message e
                        +:+ ". Proceeding to fetch."))
        (trace (final run))).
Proof.
  intros [Hid Hlang] Hmiss run txt err. subst run txt err.
  unfold getTranscriptFetches, fetched, failureLogged in *.
  enter Hid. rewrite Hlang.
  destruct (TRANSCRIPT_CACHE env); [counters env id |]; simpl.
  all: destruct (readFault env id lang) as [rf |]; simpl;
    [apply negb_true_iff in Hmiss; rewrite Hmiss; simpl
    | destruct (s !! (id, lang)) as [c |];
       [destruct c as [| c0 c1];
         [| set (c := String c0 c1) in *; clearbody c;
            apply andb_true_iff in Hmiss; destruct Hmiss as [Hclass Hmark];
            apply negb_true_iff in Hmark; simpl;
            rewrite Hclass; simpl; rewrite Hmark] |]]; simpl.
  all: destruct (youtubeTranscript id lang) as [t | yf]; simpl.
  all: try destruct (analyticsSink env id false _); simpl.
  all: try destruct (writeFault env id lang _ _); simpl.
  all: repeat split; try reflexivity.
  all: intros ? [= <-]; simpl; tauto.
Qed.

Lemma misses_handlerFetches (env : Env) (s : Store) (id lang : string) :
  cacheMisses env s id lang -> handlerFetches env s id lang = true.
Proof.
  intros [Hread [Hs | Hs]]; unfold handlerFetches; rewrite Hread, Hs;
    reflexivity.
Qed.

Lemma misses_getTranscriptFetches (env : Env) (s : Store) (id lang : string) :
  cacheMisses env s id lang -> getTranscriptFetches env s id lang = true.
Proof.
  intros [Hread [Hs | Hs]]; unfold getTranscriptFetches; rewrite Hread, Hs;
    reflexivity.
Qed.

Lemma cacheWrites_effects (tr : list Event) :
  cacheWrites (effects tr) = cacheWrites tr.
Proof.
  induction tr as [| ev tr IH]; [reflexivity |].
  destruct ev; simpl; unfold cacheWrites in *; simpl; congruence.
Qed.

Lemma fetches_effects (tr : list Event) : fetches (effects tr) = fetches tr.
Proof.
  induction tr as [| ev tr IH]; [reflexivity |].
  destruct ev; simpl; unfold fetches in *; simpl; congruence.
Qed.

End CacheMiss.

(** ** Usage counters *)

Section Related.
Context `{UrlNormalize} `{YouTube}.

Lemma related_ret {A} (a : A) : related (ret a) (ret a).
Proof. intros w1 w2 Hw. split; [reflexivity | exact Hw]. Qed.

Lemma related_throw {A} (e : JsError) : related (@throw A e) (throw e).
Proof. intros w1 w2 Hw. split; [reflexivity | exact Hw]. Qed.

Lemma related_call {A} (o : Outcome A) : related (call o) (call o).
Proof. intros w1 w2 Hw. split; [reflexivity | exact Hw]. Qed.

Lemma related_emit (ev : Event) : related (emit ev) (emit ev).
Proof.
  intros w1 w2 [Hs Ht]. unfold emit, outcome, final, sameForeground. simpl.
  rewrite Hs, Ht. auto.
Qed.

Lemma related_bind {A B} (m1 m2 : M A) (k1 k2 : A -> M B) :
  related m1 m2 -> (forall a, related (k1 a) (k2 a)) ->
  related (bind m1 k1) (bind m2 k2).
Proof.
  intros Hm Hk w1 w2 Hw. specialize (Hm w1 w2 Hw).
  unfold bind, outcome, final in *.
  destruct (m1 w1) as [[a1 | e1] w1'], (m2 w2) as [[a2 | e2] w2'];
    simpl in Hm; destruct Hm as [Ho Hw']; try discriminate Ho.
  - injection Ho as ->. apply Hk, Hw'.
  - injection Ho as ->. split; [reflexivity | exact Hw'].
Qed.

Lemma related_tryCatch {A} (b1 b2 : M A) (h1 h2 : JsError -> M A) :
  related b1 b2 -> (forall e, related (h1 e) (h2 e)) ->
  related (tryCatch b1 h1) (tryCatch b2 h2).
Proof.
  intros Hb Hh w1 w2 Hw. specialize (Hb w1 w2 Hw).
  unfold tryCatch, outcome, final in *.
  destruct (b1 w1) as [[a1 | e1] w1'], (b2 w2) as [[a2 | e2] w2'];
    simpl in Hb; destruct Hb as [Ho Hw']; try discriminate Ho.
  - injection Ho as ->. split; [reflexivity | exact Hw'].
  - injection Ho as ->. apply Hh, Hw'.
Qed.

(** A detached call is related to itself however its promise settles and
    whatever its rejection handler prints. *)
Lemma related_detached (ev : Event) (p1 p2 : Settled)
    (h1 h2 : JsError -> string) :
  related (catch_ (ev, p1) h1) (catch_ (ev, p2) h2).
Proof.
  intros w1 w2 [Hs Ht].
  unfold catch_, fireAndForget, bind, emit, outcome, final, sameForeground.
  destruct p1, p2; simpl; rewrite Hs, Ht; auto.
Qed.

Lemma related_getCachedTranscript (env1 env2 : Env) (id lang : string) :
  readFault env1 = readFault env2 ->
  related (getCachedTranscript env1 id lang) (getCachedTranscript env2 id lang).
Proof.
  intros Hf w1 w2 [Hs Ht].
  unfold getCachedTranscript, bind, emit, outcome, final, sameForeground.
  simpl. rewrite Hf, Hs, Ht.
  destruct (readFault env2 id lang); simpl; auto.
Qed.

Lemma related_setCachedTranscript (env1 env2 : Env) (id lang txt : string)
    (isErr : bool) :
  writeFault env1 = writeFault env2 ->
  related (setCachedTranscript env1 id lang txt isErr)
          (setCachedTranscript env2 id lang txt isErr).
Proof.
  intros Hf w1 w2 [Hs Ht].
  unfold setCachedTranscript, bind, emit, outcome, final, sameForeground.
  simpl. rewrite Hf, Hs, Ht.
  destruct (writeFault env2 id lang txt isErr); simpl; auto.
Qed.

Lemma related_fetch (id lang : string) :
  related (fetchTranscriptFromYouTube id lang)
          (fetchTranscriptFromYouTube id lang).
Proof.
  apply related_bind; [apply related_emit | intros _; apply related_call].
Qed.

End Related.

Create HintDb related discriminated.
#[export] Hint Resolve related_ret related_throw related_call related_emit
  related_detached related_fetch : related.

Ltac related_step :=
  lazymatch goal with
  | |- related (bind _ _) (bind _ _) => apply related_bind; [| intros ?]
  | |- related (tryCatch _ _) (tryCatch _ _) =>
      apply related_tryCatch; [| intros ?]
  | |- related (getCachedTranscript _ _ _) _ =>
      apply related_getCachedTranscript; reflexivity
  | |- related (setCachedTranscript _ _ _ _ _) _ =>
      apply related_setCachedTranscript; reflexivity
  | |- related (catch_ _ _) _ => apply related_detached
  | |- related (if ?b then _ else _) (if ?b then _ else _) => destruct b
  | |- related (match ?x with _ => _ end) (match ?x with _ => _ end) =>
      destruct x
  | |- related _ _ => solve [auto with related]
  end.

Section Counters.
Context `{UrlNormalize} `{YouTube}.

Lemma handler_related (input : Input) (env : Env)
    (daily1 daily2 : Settled) (perVideo1 perVideo2 : string -> Settled) :
  related (getTranscriptHandler input (withCounters env daily1 perVideo1))
          (getTranscriptHandler input (withCounters env daily2 perVideo2)).
Proof.
  unfold getTranscriptHandler, console, trackDailyRequests,
    incrementVideoRequestCount.
  cbv zeta. cbn [TRANSCRIPT_KV withCounters dailyCounter videoCounter].
  repeat related_step.
Qed.

Lemma getTranscript_related (u : string) (lang : option string) (env : Env)
    (daily1 daily2 : Settled) (perVideo1 perVideo2 : string -> Settled) :
  related (getTranscript u (withCounters env daily1 perVideo1) lang)
          (getTranscript u (withCounters env daily2 perVideo2) lang).
Proof.
  unfold getTranscript, console, trackDailyRequests,
    incrementVideoRequestCount, logAnalyticsError.
  cbv zeta.
  cbn [TRANSCRIPT_CACHE withCounters dailyCounter videoCounter analyticsSink].
  repeat related_step.
Qed.

(** C8: two runs of the same request that differ only in how the promises
    of [trackDailyRequests] and [incrementVideoRequestCount] settle
    (fulfilled or rejected, in any combination) hand the caller the same
    result, returned or thrown, and leave the same store and the same trace
    of the awaited path; this holds for the handler and for [getTranscript].
    A rejected counter only adds a line to the background log. *)
Theorem counters_do_not_interfere (input : Input) (env : Env) (s : Store)
    (daily1 daily2 : Settled) (perVideo1 perVideo2 : string -> Settled) :
  let env1 := withCounters env daily1 perVideo1 in
  let env2 := withCounters env daily2 perVideo2 in
  let h1 := getTranscriptHandler input env1 (init s) in
  let h2 := getTranscriptHandler input env2 (init s) in
  let g1 := getTranscript (url input) env1 (language input) (init s) in
  let g2 := getTranscript (url input) env2 (language input) (init s) in
  (outcome h1 = outcome h2 /\ store (final h1) = store (final h2) /\
   trace (final h1) = trace (final h2)) /\
  (outcome g1 = outcome g2 /\ store (final g1) = store (final g2) /\
   trace (final g1) = trace (final g2)).
Proof.
  intros env1 env2 h1 h2 g1 g2. subst env1 env2 h1 h2 g1 g2.
  assert (Hinit : sameForeground (init s) (init s)) by (split; reflexivity).
  split.
  - destruct (handler_related input env daily1 daily2 perVideo1 perVideo2
                _ _ Hinit) as (Ho & Hs & Ht). auto.
  - destruct (getTranscript_related (url input) (language input) env
                daily1 daily2 perVideo1 perVideo2 _ _ Hinit)
      as (Ho & Hs & Ht). auto.
Qed.

End Counters.

(** ** When the handler throws *)

Section HandlerThrows.
Context `{UrlNormalize} `{YouTube}.

(** The validation is called outside every [try]: what it throws leaves
    the handler. *)
Lemma handler_propagates_validation_throw (input : Input) (env : Env)
    (w : World) (e : JsError) :
  isValidYouTubeUrl (url input) = Thrown e ->
  getTranscriptHandler input env w = (Thrown e, w).
Proof. intros Hthrow. unfold_js. rewrite Hthrow. reflexivity. Qed.

End HandlerThrows.

Section TaskLogic.


















End TaskLogic.

Section NeverThrows.
Context `{UrlNormalize} `{Any.YouTube}.




End NeverThrows.

(** ** The claims about cache hits, misses and faults *)

Section Claims.
Context `{UrlNormalize} `{YouTube}.

(** C6, amended: when the cache holds under (id, lang) a non-empty
    success string, one that none of the error phrases of the pipeline
    matches (neither [isLikelyError] nor [isCachedError] takes it for an
    error), a request for (id, lang) returns exactly that string as a
    success, leaves the store as it was, and does nothing but the counter
    calls and the one cache read: no fetch, no cache write, no failure
    log. *)
Theorem cached_success_returned (input : Input) (env : Env) (s : Store)
    (id lang c : string) :
  requestFor input id lang -> cacheHolds env s id lang c -> c <> "" ->
  isLikelyError c = false -> isCachedError c = false ->
  let h := getTranscriptHandler input env (init s) in
  let g := getTranscript (url input) env (language input) (init s) in
  (outcome h = unflagged c /\ store (final h) = s /\
   effects (trace (final h))
     = counted (TRANSCRIPT_KV env) id ++ [CacheRead id lang]) /\
  (outcome g = Returned c /\ store (final g) = s /\
   effects (trace (final g))
     = counted (TRANSCRIPT_CACHE env) id ++ [CacheRead id lang]).
Proof.
  intros Hreq Hholds Hc Hlikely Hcached h g. subst h g. split.
  - destruct (handler_hit input env s id lang c Hreq Hholds Hc)
      as (Ho & Hs & Ht).
    rewrite Hlikely in Ho. auto.
  - apply getTranscript_hit_success; assumption.
Qed.

(** The handler reports a cached string that its phrases match as a
    failure carrying exactly that string, without fetching. *)
Lemma handler_cached_error_flagged (input : Input) (env : Env) (s : Store)
    (id lang c : string) :
  requestFor input id lang -> cacheHolds env s id lang c ->
  isLikelyError c = true ->
  let h := getTranscriptHandler input env (init s) in
  outcome h = flagged c /\ store (final h) = s /\
  fetches (trace (final h)) = [].
Proof.
  intros Hreq Hholds Hclass h. subst h.
  assert (Hc : c <> "") by (intros ->; discriminate Hclass).
  destruct (handler_hit input env s id lang c Hreq Hholds Hc)
    as (Ho & Hs & Ht).
  rewrite Hclass in Ho. repeat split; try assumption.
  rewrite <- fetches_effects, Ht.
  destruct (TRANSCRIPT_KV env); reflexivity.
Qed.

(** [getTranscript] fetches again when the cached error text does not
    start with the marker: its own [throw] is caught by the [catch] of the
    lookup, which only lets marked messages through. *)
Lemma getTranscript_unmarked_error_refetched (input : Input) (env : Env)
    (s : Store) (id lang c : string) :
  requestFor input id lang -> cacheHolds env s id lang c ->
  isCachedError c = true -> startsWith c "Error:" = false ->
  let g := getTranscript (url input) env (language input) (init s) in
  fetches (trace (final g)) = [(id, lang)].
Proof.
  intros Hreq [Hread Hs] Hclass Hmark g. subst g.
  assert (Hc : c <> "") by (intros ->; discriminate Hclass).
  assert (Hfetch : getTranscriptFetches env s id lang = true).
  { unfold getTranscriptFetches. rewrite Hread, Hs.
    destruct c; [congruence |]. rewrite Hclass, Hmark. reflexivity. }
  destruct (getTranscript_fetch_path input env s id lang Hreq Hfetch)
    as (_ & Ht & _).
  rewrite <- fetches_effects, Ht. unfold failureLogged.
  destruct (TRANSCRIPT_CACHE env), (youtubeTranscript id lang); reflexivity.
Qed.

(** C7, amended: on a cache miss the handler always issues one write of
    the outcome string, and [getTranscript] issues it when the
    [TRANSCRIPT_CACHE] binding is there and issues none otherwise; whether
    or not that write faults, the caller receives the fetched text or the
    classified error with its error status, and a faulting write only
    leaves the store as it was. *)
Theorem cache_write_best_effort (input : Input) (env : Env) (s : Store)
    (id lang : string) :
  requestFor input id lang -> cacheMisses env s id lang ->
  let h := getTranscriptHandler input env (init s) in
  let g := getTranscript (url input) env (language input) (init s) in
  let txt := fst (fetched id lang) in
  let err := snd (fetched id lang) in
  let written := match writeFault env id lang txt err with
                 | Some _ => s
                 | None => <[(id, lang) := txt]> s
                 end in
  (outcome h = Returned (textResult txt err) /\
   cacheWrites (trace (final h)) = [(id, lang, txt, err)] /\
   store (final h) = written) /\
  (outcome g = (if err then Thrown (newError txt) else Returned txt) /\
   cacheWrites (trace (final g))
     = (if TRANSCRIPT_CACHE env then [(id, lang, txt, err)] else []) /\
   store (final g) = (if TRANSCRIPT_CACHE env then written else s)).
Proof.
  intros Hreq Hmiss h g txt err written. subst h g txt err written. split.
  - destruct (handler_fetch_path input env s id lang Hreq
                (misses_handlerFetches _ _ _ _ Hmiss)) as (Ho & Ht & Hs & _).
    repeat split; try assumption.
    rewrite <- cacheWrites_effects, Ht.
    destruct (TRANSCRIPT_KV env); reflexivity.
  - destruct (getTranscript_fetch_path input env s id lang Hreq
                (misses_getTranscriptFetches _ _ _ _ Hmiss))
      as (Ho & Ht & Hs & _).
    repeat split; try assumption.
    rewrite <- cacheWrites_effects, Ht. unfold failureLogged.
    destruct (TRANSCRIPT_CACHE env), (youtubeTranscript id lang); reflexivity.
Qed.

(** C5, amended: on a cache miss followed by a failed fetch, the string
    that [handleYouTubeErrors] makes of the raw fault is what the caller
    gets, flagged by the handler and thrown by [getTranscript], and it is
    the text of the cache write, flagged as an error; the handler always
    issues that write, [getTranscript] only when the [TRANSCRIPT_CACHE]
    binding is there, and otherwise it writes nothing. *)
Theorem fetch_failure_classified (input : Input) (env : Env) (s : Store)
    (id lang : string) (e : JsError) :
  requestFor input id lang -> cacheMisses env s id lang ->
  youtubeTranscript id lang = Thrown e ->
  let h := getTranscriptHandler input env (init s) in
  let g := getTranscript (url input) env (language input) (init s) in
  let txt := handleYouTubeErrors e in
  (outcome h = flagged txt /\
   cacheWrites (trace (final h)) = [(id, lang, txt, true)]) /\
  (outcome g = Thrown (newError txt) /\
   cacheWrites (trace (final g))
     = (if TRANSCRIPT_CACHE env then [(id, lang, txt, true)] else [])).
Proof.
  intros Hreq Hmiss Hfail h g txt. subst h g txt.
  assert (Hfetched : fetched id lang = (handleYouTubeErrors e, true))
    by (unfold fetched; rewrite Hfail; reflexivity).
  split.
  - destruct (handler_fetch_path input env s id lang Hreq
                (misses_handlerFetches _ _ _ _ Hmiss)) as (Ho & Ht & _).
    rewrite Hfetched in Ho, Ht. split; [exact Ho |].
    rewrite <- cacheWrites_effects, Ht.
    destruct (TRANSCRIPT_KV env); reflexivity.
  - destruct (getTranscript_fetch_path input env s id lang Hreq
                (misses_getTranscriptFetches _ _ _ _ Hmiss))
      as (Ho & Ht & _).
    rewrite Hfetched in Ho, Ht. split; [exact Ho |].
    rewrite <- cacheWrites_effects, Ht. unfold failureLogged.
    rewrite Hfail. destruct (TRANSCRIPT_CACHE env); reflexivity.
Qed.

End Claims.

Section Faults.
Context `{UrlNormalize} `{YouTube}.

(** A read fault whose message starts with the marker leaves the [catch]
    of [getTranscript] again, before anything is fetched or written. *)
Lemma getTranscript_marked_fault_thrown (input : Input) (env : Env)
    (s : Store) (id lang : string) (e : JsError) :
  requestFor input id lang -> readFault env id lang = Some e ->
  startsWith (message e) "Error:" = true ->
  let g := getTranscript (url input) env (language input) (init s) in
  outcome g = Thrown e /\ store (final g) = s /\
  effects (trace (final g))
    = counted (TRANSCRIPT_CACHE env) id ++ [CacheRead id lang].
Proof.
  intros [Hid Hlang] Hread Hmark g. subst g.
  enter Hid. rewrite Hlang.
  destruct (TRANSCRIPT_CACHE env); [counters env id |];
    simpl; rewrite Hread; simpl; rewrite Hmark; simpl; auto.
Qed.

(** C2, amended: a fault of the cache read never fails the handler, which
    prints it and goes on exactly as if the key were absent, also when the
    message starts with the marker; [getTranscript] does the same for a
    fault whose message does not start with ['Error:'], and throws the
    fault itself, without fetching or writing, when it does. *)
Theorem read_fault_policy (input : Input) (env : Env) (s s' : Store)
    (id lang : string) (e : JsError) :
  requestFor input id lang -> readFault env id lang = Some e ->
  s' !! (id, lang) = None ->
  let quiet := withReadFault env (fun _ _ => None) in
  let h := getTranscriptHandler input env (init s) in
  let h0 := getTranscriptHandler input quiet (init s') in
  let g := getTranscript (url input) env (language input) (init s) in
  let g0 := getTranscript (url input) quiet (language input) (init s') in
  (outcome h = outcome h0 /\
   effects (trace (final h)) = effects (trace (final h0)) /\
   In (Console Error ("Cache read error for " +:+ id +:+ ": "
                      +:+ message e))
      (trace (final h))) /\
  (startsWith (message e) "Error:" = false ->
   outcome g = outcome g0 /\
   effects (trace (final g)) = effects (trace (final g0)) /\
   In (Console Error ("Cache read error for " +:+ id +:+ " (lang: "
                      +:+ lang +:+ "): " +:+ message e
                      +:+ ". Proceeding to fetch."))
      (trace (final g))) /\
  (startsWith (message e) "Error:" = true ->
   outcome g = Thrown e /\ store (final g) = s /\
   effects (trace (final g))
     = counted (TRANSCRIPT_CACHE env) id ++ [CacheRead id lang]).
Proof.
  intros Hreq Hread Habsent quiet h h0 g g0. subst quiet h h0 g g0.
  set (quiet := withReadFault env (fun _ _ => None)).
  assert (Hquiet : cacheMisses quiet s' id lang)
    by (split; [reflexivity | left; exact Habsent]).
  split; [| split].
  - assert (Hfetch : handlerFetches env s id lang = true)
      by (unfold handlerFetches; rewrite Hread; reflexivity).
    destruct (handler_fetch_path input env s id lang Hreq Hfetch)
      as (Ho & Ht & _ & Hlog).
    destruct (handler_fetch_path input quiet s' id lang Hreq
                (misses_handlerFetches _ _ _ _ Hquiet)) as (Ho0 & Ht0 & _).
    rewrite Ho, Ho0, Ht, Ht0. auto.
  - intros Hmark.
    assert (Hfetch : getTranscriptFetches env s id lang = true)
      by (unfold getTranscriptFetches; rewrite Hread, Hmark; reflexivity).
    destruct (getTranscript_fetch_path input env s id lang Hreq Hfetch)
      as (Ho & Ht & _ & Hlog).
    destruct (getTranscript_fetch_path input quiet s' id lang Hreq
                (misses_getTranscriptFetches _ _ _ _ Hquiet))
      as (Ho0 & Ht0 & _).
    rewrite Ho, Ho0, Ht, Ht0. auto.
  - intros Hmark. apply getTranscript_marked_fault_thrown; assumption.
Qed.

Lemma agree_success (t : string) : agree (unflagged t) (Returned t).
Proof.
  intros t'. unfold unflagged, flagged, throwsMessage, textResult.
  repeat split; intros Hx; try congruence.
  destruct Hx as (e & Hx & _). discriminate Hx.
Qed.

Lemma agree_failure (t : string) : agree (flagged t) (Thrown (newError t)).
Proof.
  intros t'. unfold unflagged, flagged, throwsMessage, textResult.
  repeat split; intros Hx; try congruence.
  - injection Hx as <-. exists (newError t). auto.
  - destruct Hx as (e & [= <-] & <-). reflexivity.
Qed.

(** C3, amended: for a URL that is accepted and yields an identifier, the
    two conventions agree (the handler returns [t] unflagged exactly when
    [getTranscript] returns [t], and returns [t] flagged exactly when
    [getTranscript] throws an error with message [t]) whenever the lookup
    misses, faults with a message that does not start with ['Error:'],
    finds a string that starts with ['Error:'], or finds a non-empty string
    that neither function's phrases match. *)
Theorem conventions_agree (input : Input) (env : Env) (s : Store)
    (id lang : string) :
  requestFor input id lang -> comparableLookup env s id lang = true ->
  agree (outcome (getTranscriptHandler input env (init s)))
        (outcome (getTranscript (url input) env (language input) (init s))).
Proof.
  intros Hreq Hcmp.
  assert (Hpath :
    handlerFetches env s id lang = true ->
    getTranscriptFetches env s id lang = true ->
    agree (outcome (getTranscriptHandler input env (init s)))
      (outcome (getTranscript (url input) env (language input) (init s)))).
  { intros Hh Hg.
    destruct (handler_fetch_path input env s id lang Hreq Hh) as (-> & _).
    destruct (getTranscript_fetch_path input env s id lang Hreq Hg)
      as (-> & _).
    destruct (fetched id lang) as [txt [|]]; simpl;
      [apply agree_failure | apply agree_success]. }
  unfold comparableLookup in Hcmp.
  destruct (readFault env id lang) as [e |] eqn:Hread.
  { apply Hpath; [unfold handlerFetches | unfold getTranscriptFetches];
      rewrite Hread; [reflexivity | exact Hcmp]. }
  destruct (s !! (id, lang)) as [c |] eqn:Hs.
  2: { apply Hpath; [unfold handlerFetches | unfold getTranscriptFetches];
         rewrite Hread, Hs; reflexivity. }
  destruct (string_dec c "") as [-> | Hc].
  { apply Hpath; [unfold handlerFetches | unfold getTranscriptFetches];
      rewrite Hread, Hs; reflexivity. }
  assert (Hholds : cacheHolds env s id lang c) by (split; assumption).
  assert (Hcmp' : startsWith c "Error:"
                  || (negb (isLikelyError c) && negb (isCachedError c)) = true)
    by (destruct c; [congruence | exact Hcmp]).
  destruct (handler_hit input env s id lang c Hreq Hholds Hc) as (-> & _).
  destruct (startsWith c "Error:") eqn:Hmark.
  - destruct (getTranscript_hit_marked input env s id lang c Hreq Hholds Hmark)
      as (-> & _).
    unfold isLikelyError. rewrite Hmark. apply agree_failure.
  - simpl in Hcmp'. apply andb_true_iff in Hcmp'.
    destruct Hcmp' as [Hl Hg]. apply negb_true_iff in Hl, Hg.
    destruct (getTranscript_hit_success input env s id lang c Hreq Hholds
                Hc Hg) as (-> & _).
    rewrite Hl. apply agree_success.
Qed.

End Faults.

(** ** Beyond the lookup: identifiers, effects, the store *)

Section Paths.
Context `{UrlNormalize} `{YouTube}.

(** Every lookup either sends the handler to the fetch or is a hit on a
    non-empty string. *)
Lemma handler_lookup_cases (env : Env) (s : Store) (id lang : string) :
  handlerFetches env s id lang = true \/
  (handlerFetches env s id lang = false /\
   exists c, cacheHolds env s id lang c /\ c <> "").
Proof.
  unfold handlerFetches, cacheHolds.
  destruct (readFault env id lang); [left; reflexivity |].
  destruct (s !! (id, lang)) as [[| a c] |]; try (left; reflexivity).
  right. split; [reflexivity |]. exists (String a c).
  repeat split. discriminate.
Qed.

(** Every lookup sends [getTranscript] to the fetch, or is a marked read
    fault, or a hit on a string it takes for a success, or a hit on a
    marked string. *)
Lemma getTranscript_lookup_cases (env : Env) (s : Store) (id lang : string) :
  getTranscriptFetches env s id lang = true \/
  (getTranscriptFetches env s id lang = false /\
   ((exists e, readFault env id lang = Some e /\
               startsWith (message e) "Error:" = true) \/
    (exists c, cacheHolds env s id lang c /\ c <> "" /\
               isCachedError c = false) \/
    (exists c, cacheHolds env s id lang c /\
               startsWith c "Error:" = true))).
Proof.
  unfold getTranscriptFetches, cacheHolds.
  destruct (readFault env id lang) as [e |].
  { destruct (startsWith (message e) "Error:") eqn:Hmark;
      [right | left; reflexivity].
    split; [reflexivity |]. left. exists e. auto. }
  destruct (s !! (id, lang)) as [[| a c] |]; try (left; reflexivity).
  set (cached := String a c).
  destruct (isCachedError cached) eqn:Hclass.
  - destruct (startsWith cached "Error:") eqn:Hmark;
      [right | left; reflexivity].
    split; [reflexivity |]. right. right. exists cached. auto.
  - right. split; [reflexivity |]. right. left. exists cached.
    repeat split; [discriminate | exact Hclass].
Qed.

(** X1: when the URL is accepted but [extractVideoId] gives [null] or the
    empty string, the handler returns the flagged text "Error: Could not
    extract video ID from the URL." and [getTranscript] throws "Could not
    extract video ID from the URL."; the world is left as it was: no
    counter is called, nothing is read, fetched or written. *)
Theorem missing_identifier_no_effects (input : Input) (env : Env)
    (w : World) :
  identifierMissing (url input) ->
  getTranscriptHandler input env w
    = (flagged "Error: Could not extract video ID from the URL.", w) /\
  getTranscript (url input) env (language input) w
    = (Thrown (newError "Could not extract video ID from the URL."), w).
Proof.
  intros (Hvalid & n & Hnorm & [Hx | Hx]); unfold_js;
    rewrite Hvalid; cbn [negb]; rewrite Hnorm, Hx; split; reflexivity.
Qed.

(** X2: an exception of [isValidYouTubeUrl], [normalizeYouTubeUrl] or
    [extractVideoId] leaves both functions as it is, the handler included,
    before any counter, cache or fetch call: these calls stand outside
    every [try]. *)
Theorem url_utility_throw_propagates (input : Input) (env : Env)
    (w : World) (e : JsError) :
  urlUtilityThrows (url input) e ->
  getTranscriptHandler input env w = (Thrown e, w) /\
  getTranscript (url input) env (language input) w = (Thrown e, w).
Proof.
  intros [Hvalid | [Hvalid [Hnorm | (n & Hnorm & Hx)]]]; unfold_js;
    rewrite Hvalid; cbn [negb]; try rewrite Hnorm; try rewrite Hx;
    split; reflexivity.
Qed.

(** X3: a request of the handler with an identifier calls the two counters
    first, and only when [TRANSCRIPT_KV] is there, then reads the cache
    once, and then either stops or fetches once and writes once what the
    fetch left, in this order; it never fetches twice and never writes
    without having fetched. *)
Theorem handler_effects_shape (input : Input) (env : Env) (s : Store)
    (id lang : string) :
  requestFor input id lang ->
  effects (trace (final (getTranscriptHandler input env (init s))))
    = counted (TRANSCRIPT_KV env) id
      ++ CacheRead id lang
         :: (if handlerFetches env s id lang
             then [Fetch id lang;
                   CacheWrite id lang (fst (fetched id lang))
                     (snd (fetched id lang))]
             else []).
Proof.
  intros Hreq.
  destruct (handler_lookup_cases env s id lang)
    as [Hfetch | (Hhit & c & Hholds & Hc)].
  - rewrite Hfetch.
    destruct (handler_fetch_path input env s id lang Hreq Hfetch)
      as (_ & Ht & _).
    exact Ht.
  - rewrite Hhit.
    destruct (handler_hit input env s id lang c Hreq Hholds Hc)
      as (_ & _ & Ht).
    exact Ht.
Qed.

(** X4: a request of [getTranscript] with an identifier calls the two
    counters first, and only when [TRANSCRIPT_CACHE] is there, then reads
    the cache once, and then either stops or fetches once; the failure log
    is called only after a failed fetch and the write only after a fetch,
    both only when [TRANSCRIPT_CACHE] is there. *)
Theorem getTranscript_effects_shape (input : Input) (env : Env) (s : Store)
    (id lang : string) :
  requestFor input id lang ->
  effects (trace (final (getTranscript (url input) env (language input)
                           (init s))))
    = counted (TRANSCRIPT_CACHE env) id
      ++ CacheRead id lang
         :: (if getTranscriptFetches env s id lang
             then Fetch id lang
                  :: failureLogged env id lang
                  ++ (if TRANSCRIPT_CACHE env
                      then [CacheWrite id lang (fst (fetched id lang))
                              (snd (fetched id lang))]
                      else [])
             else []).
Proof.
  intros Hreq.
  destruct (getTranscript_lookup_cases env s id lang)
    as [Hfetch | (Hhit & [(e & Hread & Hmark)
                         | [(c & Hholds & Hc & Hclass)
                           | (c & Hholds & Hmark)]])].
  - rewrite Hfetch.
    destruct (getTranscript_fetch_path input env s id lang Hreq Hfetch)
      as (_ & Ht & _).
    exact Ht.
  - rewrite Hhit.
    destruct (getTranscript_marked_fault_thrown input env s id lang e Hreq
                Hread Hmark) as (_ & _ & Ht).
    exact Ht.
  - rewrite Hhit.
    destruct (getTranscript_hit_success input env s id lang c Hreq Hholds
                Hc Hclass) as (_ & _ & Ht).
    exact Ht.
  - rewrite Hhit.
    destruct (getTranscript_hit_marked input env s id lang c Hreq Hholds
                Hmark) as (_ & _ & Ht).
    exact Ht.
Qed.

(** X5: a request for (id, lang) leaves every other key of the store as it
    was, in both functions and on every path. *)
Theorem request_touches_only_its_key (input : Input) (env : Env) (s : Store)
    (id lang : string) (k : string * string) :
  requestFor input id lang -> k <> (id, lang) ->
  store (final (getTranscriptHandler input env (init s))) !! k = s !! k /\
  store (final (getTranscript (url input) env (language input) (init s)))
    !! k = s !! k.
Proof.
  intros Hreq Hk. split.
  - destruct (handler_lookup_cases env s id lang)
      as [Hfetch | (_ & c & Hholds & Hc)].
    + destruct (handler_fetch_path input env s id lang Hreq Hfetch)
        as (_ & _ & -> & _).
      destruct (writeFault env id lang _ _); [reflexivity |].
      apply lookup_insert_ne. congruence.
    + destruct (handler_hit input env s id lang c Hreq Hholds Hc)
        as (_ & -> & _).
      reflexivity.
  - destruct (getTranscript_lookup_cases env s id lang)
      as [Hfetch | (_ & [(e & Hread & Hmark)
                        | [(c & Hholds & Hc & Hclass)
                          | (c & Hholds & Hmark)]])].
    + destruct (getTranscript_fetch_path input env s id lang Hreq Hfetch)
        as (_ & _ & -> & _).
      destruct (TRANSCRIPT_CACHE env); [| reflexivity].
      destruct (writeFault env id lang _ _); [reflexivity |].
      apply lookup_insert_ne. congruence.
    + destruct (getTranscript_marked_fault_thrown input env s id lang e Hreq
                  Hread Hmark) as (_ & -> & _).
      reflexivity.
    + destruct (getTranscript_hit_success input env s id lang c Hreq Hholds
                  Hc Hclass) as (_ & -> & _).
      reflexivity.
    + destruct (getTranscript_hit_marked input env s id lang c Hreq Hholds
                  Hmark) as (_ & -> & _).
      reflexivity.
Qed.

End Paths.

(** ** Successive requests *)

Section Successive.
Context `{UrlNormalize} `{YouTube}.

(** X6: when the write of the handler is accepted, the text the caller
    receives is, after the request, the text the store holds under the key
    of the request, on every path: hit, miss, or read fault. *)
Theorem handler_result_is_cached (input : Input) (env : Env) (s : Store)
    (id lang : string) :
  requestFor input id lang ->
  writeFault env id lang (fst (fetched id lang)) (snd (fetched id lang))
    = None ->
  let h := getTranscriptHandler input env (init s) in
  exists (t : string) (flag : bool),
    outcome h = Returned (textResult t flag) /\
    store (final h) !! (id, lang) = Some t.
Proof.
  intros Hreq Hwrite h. subst h.
  destruct (handler_lookup_cases env s id lang)
    as [Hfetch | (_ & c & Hholds & Hc)].
  - destruct (handler_fetch_path input env s id lang Hreq Hfetch)
      as (Ho & _ & Hs & _).
    rewrite Hwrite in Hs.
    exists (fst (fetched id lang)), (snd (fetched id lang)).
    split; [exact Ho | rewrite Hs; apply lookup_insert_eq].
  - destruct (handler_hit input env s id lang c Hreq Hholds Hc)
      as (Ho & Hs & _).
    exists c, (isLikelyError c).
    split; [exact Ho | rewrite Hs; apply Hholds].
Qed.

(** X7: with the [TRANSCRIPT_CACHE] binding, a read that does not fault
    and a write that is accepted, the text [getTranscript] returns, or the
    message of the error it throws, is after the request the text the store
    holds under the key of the request. *)
Theorem getTranscript_result_is_cached (input : Input) (env : Env)
    (s : Store) (id lang : string) :
  requestFor input id lang ->
  TRANSCRIPT_CACHE env = true ->
  readFault env id lang = None ->
  writeFault env id lang (fst (fetched id lang)) (snd (fetched id lang))
    = None ->
  let g := getTranscript (url input) env (language input) (init s) in
  exists t : string,
    (outcome g = Returned t \/ outcome g = Thrown (newError t)) /\
    store (final g) !! (id, lang) = Some t.
Proof.
  intros Hreq Hbinding Hread Hwrite g. subst g.
  destruct (getTranscript_lookup_cases env s id lang)
    as [Hfetch | (_ & [(e & Hfault & _)
                      | [(c & Hholds & Hc & Hclass)
                        | (c & Hholds & Hmark)]])].
  - destruct (getTranscript_fetch_path input env s id lang Hreq Hfetch)
      as (Ho & _ & Hs & _).
    rewrite Hbinding, Hwrite in Hs.
    exists (fst (fetched id lang)). split.
    + rewrite Ho. destruct (snd (fetched id lang)); auto.
    + rewrite Hs. apply lookup_insert_eq.
  - congruence.
  - destruct (getTranscript_hit_success input env s id lang c Hreq Hholds
                Hc Hclass) as (Ho & Hs & _).
    exists c. split; [left; exact Ho | rewrite Hs; apply Hholds].
  - destruct (getTranscript_hit_marked input env s id lang c Hreq Hholds
                Hmark) as (Ho & Hs & _).
    exists c. split; [right; exact Ho | rewrite Hs; apply Hholds].
Qed.

(** X8: after a miss whose fetch left a non-empty text and whose write was
    accepted, the same request repeated on the resulting store is served by
    the handler from the cache: the same text, no fetch, no write; its flag
    is no longer the one of the fetch but [isLikelyError] of the text. *)
Theorem handler_second_request_from_cache (input : Input) (env : Env)
    (s : Store) (id lang : string) :
  requestFor input id lang -> cacheMisses env s id lang ->
  let txt := fst (fetched id lang) in
  let err := snd (fetched id lang) in
  txt <> "" -> writeFault env id lang txt err = None ->
  let first := getTranscriptHandler input env (init s) in
  let second := getTranscriptHandler input env (init (store (final first))) in
  outcome first = Returned (textResult txt err) /\
  outcome second = Returned (textResult txt (isLikelyError txt)) /\
  effects (trace (final second))
    = counted (TRANSCRIPT_KV env) id ++ [CacheRead id lang] /\
  store (final second) = store (final first).
Proof.
  intros Hreq Hmiss txt err Htxt Hwrite first second.
  subst txt err first second.
  destruct (handler_fetch_path input env s id lang Hreq
              (misses_handlerFetches _ _ _ _ Hmiss)) as (Ho & _ & Hs & _).
  rewrite Hwrite in Hs. rewrite Hs.
  assert (Hholds : cacheHolds env (<[(id, lang) := fst (fetched id lang)]> s)
                     id lang (fst (fetched id lang)))
    by (split; [apply Hmiss | apply lookup_insert_eq]).
  destruct (handler_hit input env _ id lang _ Hreq Hholds Htxt)
    as (Ho2 & Hs2 & Ht2).
  auto.
Qed.

(** X9: with the [TRANSCRIPT_CACHE] binding, after a miss whose fetch
    returned a non-empty transcript that [isCachedError] does not match and
    whose write was accepted, the same request repeated on the resulting
    store is served by [getTranscript] from the cache, without a fetch. *)
Theorem getTranscript_second_request_from_cache (input : Input) (env : Env)
    (s : Store) (id lang t : string) :
  requestFor input id lang -> cacheMisses env s id lang ->
  TRANSCRIPT_CACHE env = true ->
  youtubeTranscript id lang = Returned t ->
  t <> "" -> isCachedError t = false ->
  writeFault env id lang t false = None ->
  let first := getTranscript (url input) env (language input) (init s) in
  let second := getTranscript (url input) env (language input)
                  (init (store (final first))) in
  outcome first = Returned t /\
  outcome second = Returned t /\
  effects (trace (final second))
    = counted (TRANSCRIPT_CACHE env) id ++ [CacheRead id lang] /\
  store (final second) = store (final first).
Proof.
  intros Hreq Hmiss Hbinding Hfetch Ht Hclass Hwrite first second.
  subst first second.
  destruct (getTranscript_fetch_path input env s id lang Hreq
              (misses_getTranscriptFetches _ _ _ _ Hmiss))
    as (Ho & _ & Hs & _).
  unfold fetched in Ho, Hs. rewrite Hfetch in Ho, Hs. simpl in Ho, Hs.
  rewrite Hbinding, Hwrite in Hs. rewrite Hs.
  assert (Hholds : cacheHolds env (<[(id, lang) := t]> s) id lang t)
    by (split; [apply Hmiss | apply lookup_insert_eq]).
  destruct (getTranscript_hit_success input env _ id lang t Hreq Hholds
              Ht Hclass) as (Ho2 & Hs2 & Ht2).
  auto.
Qed.

(** X10: with the [TRANSCRIPT_CACHE] binding, after a miss whose fetch
    failed with a classified message that starts with ['Error:'] and whose
    write was accepted, the same request repeated on the resulting store
    throws the same message again without fetching. *)
Theorem getTranscript_known_failure_not_refetched (input : Input)
    (env : Env) (s : Store) (id lang : string) (e : JsError) :
  requestFor input id lang -> cacheMisses env s id lang ->
  TRANSCRIPT_CACHE env = true ->
  youtubeTranscript id lang = Thrown e ->
  let c := handleYouTubeErrors e in
  startsWith c "Error:" = true ->
  writeFault env id lang c true = None ->
  let first := getTranscript (url input) env (language input) (init s) in
  let second := getTranscript (url input) env (language input)
                  (init (store (final first))) in
  outcome first = Thrown (newError c) /\
  outcome second = Thrown (newError c) /\
  effects (trace (final second))
    = counted (TRANSCRIPT_CACHE env) id ++ [CacheRead id lang] /\
  store (final second) = store (final first).
Proof.
  intros Hreq Hmiss Hbinding Hfetch c Hmark Hwrite first second.
  subst c first second.
  destruct (getTranscript_fetch_path input env s id lang Hreq
              (misses_getTranscriptFetches _ _ _ _ Hmiss))
    as (Ho & _ & Hs & _).
  unfold fetched in Ho, Hs. rewrite Hfetch in Ho, Hs. simpl in Ho, Hs.
  rewrite Hbinding, Hwrite in Hs. rewrite Hs.
  assert (Hholds : cacheHolds env
                     (<[(id, lang) := handleYouTubeErrors e]> s) id lang
                     (handleYouTubeErrors e))
    by (split; [apply Hmiss | apply lookup_insert_eq]).
  destruct (getTranscript_hit_marked input env _ id lang _ Hreq Hholds
              Hmark) as (Ho2 & Hs2 & Ht2).
  auto.
Qed.

(** X11: without the [TRANSCRIPT_CACHE] binding [getTranscript] never
    changes the store and calls neither the counters nor the failure log:
    all it does is one cache read and, unless that is a hit or a marked
    fault, one fetch. *)
Theorem getTranscript_without_binding (input : Input) (env : Env)
    (s : Store) (id lang : string) :
  requestFor input id lang -> TRANSCRIPT_CACHE env = false ->
  let g := getTranscript (url input) env (language input) (init s) in
  store (final g) = s /\
  effects (trace (final g))
    = CacheRead id lang
      :: (if getTranscriptFetches env s id lang then [Fetch id lang] else []).
Proof.
  intros Hreq Hbinding g. subst g.
  destruct (getTranscript_lookup_cases env s id lang)
    as [Hfetch | (Hhit & [(e & Hread & Hmark)
                         | [(c & Hholds & Hc & Hclass)
                           | (c & Hholds & Hmark)]])].
  - destruct (getTranscript_fetch_path input env s id lang Hreq Hfetch)
      as (_ & Ht & Hs & _).
    rewrite Hfetch, Hs, Ht. unfold failureLogged. rewrite Hbinding.
    destruct (youtubeTranscript id lang); auto.
  - destruct (getTranscript_marked_fault_thrown input env s id lang e Hreq
                Hread Hmark) as (_ & Hs & Ht).
    rewrite Hhit, Hs, Ht, Hbinding. auto.
  - destruct (getTranscript_hit_success input env s id lang c Hreq Hholds
                Hc Hclass) as (_ & Hs & Ht).
    rewrite Hhit, Hs, Ht, Hbinding. auto.
  - destruct (getTranscript_hit_marked input env s id lang c Hreq Hholds
                Hmark) as (_ & Hs & Ht).
    rewrite Hhit, Hs, Ht, Hbinding. auto.
Qed.

End Successive.

(** ** What is thrown, what is printed *)

Section Thrown.
Context `{UrlNormalize} `{YouTube}.

(** What [getTranscript] throws, when its faults are [Error] objects. *)
Lemma getTranscript_thrown_cases (input : Input) (env : Env) (s : Store)
    (e : JsError) :
  urlUtilitiesReturnFor (url input) ->
  outcome (getTranscript (url input) env (language input) (init s))
    = Thrown e ->
  (exists msg, e = newError msg /\
     (msg = "Invalid YouTube URL provided." \/
      msg = "Could not extract video ID from the URL." \/
      (exists id lang, s !! (id, lang) = Some msg) \/
      (exists id lang f, youtubeTranscript id lang = Thrown f /\
                         msg = handleYouTubeErrors f))) \/
  (exists id lang, readFault env id lang = Some e /\
                   startsWith (message e) "Error:" = true).
Proof.
  intros (valid & Hvalid & Hrest) Hthrown.
  assert (Hearly : forall msg,
            getTranscript (url input) env (language input) (init s)
              = (Thrown (newError msg), init s) ->
            e = newError msg).
  { intros msg Hrun. rewrite Hrun in Hthrown. injection Hthrown as <-.
    reflexivity. }
  destruct valid.
  2: { left. exists "Invalid YouTube URL provided.". split; [| auto].
       apply Hearly. unfold_js. rewrite Hvalid. reflexivity. }
  destruct (Hrest eq_refl) as (n & Hnorm & v & Hextract).
  assert (Hmissing : v = None \/ v = Some "" ->
            e = newError "Could not extract video ID from the URL.").
  { intros Hnone. apply Hearly. unfold_js. rewrite Hvalid. cbn [negb].
    rewrite Hnorm, Hextract. destruct Hnone as [-> | ->]; reflexivity. }
  destruct v as [id |].
  2: { left. eexists. split; [apply Hmissing; auto | auto]. }
  destruct (string_dec id "") as [-> | Hid].
  { left. eexists. split; [apply Hmissing; auto | auto]. }
  clear Hearly Hmissing.
  set (lang := default "en" (language input)).
  assert (Hreq : requestFor input id lang).
  { split; [| reflexivity]. split; [exact Hvalid |]. exists n. auto. }
  destruct (getTranscript_lookup_cases env s id lang)
    as [Hfetch | (_ & [(f & Hread & Hmark)
                      | [(c & Hholds & Hc & Hclass)
                        | (c & Hholds & Hmark)]])].
  - destruct (getTranscript_fetch_path input env s id lang Hreq Hfetch)
      as (Ho & _).
    rewrite Ho in Hthrown. unfold fetched in Hthrown.
    destruct (youtubeTranscript id lang) as [t | f] eqn:Hyt;
      simpl in Hthrown; [discriminate |].
    injection Hthrown as <-. left. eexists. split; [reflexivity |].
    right. right. right. exists id, lang, f. auto.
  - destruct (getTranscript_marked_fault_thrown input env s id lang f Hreq
                Hread Hmark) as (Ho & _).
    rewrite Ho in Hthrown. injection Hthrown as <-.
    right. exists id, lang. auto.
  - destruct (getTranscript_hit_success input env s id lang c Hreq Hholds
                Hc Hclass) as (Ho & _).
    rewrite Ho in Hthrown. discriminate.
  - destruct (getTranscript_hit_marked input env s id lang c Hreq Hholds
                Hmark) as (Ho & _).
    rewrite Ho in Hthrown. injection Hthrown as <-.
    left. eexists. split; [reflexivity |].
    right. right. left. exists id, lang. apply Hholds.
Qed.

Lemma analyticsErrorName_label (f : JsError) :
  analyticsErrorName f <> "" /\ analyticsErrorName f <> "Error".
Proof.
  unfold analyticsErrorName.
  destruct (name f) as [| a rest] eqn:Hname; [split; discriminate |].
  destruct (String.eqb (String a rest) "Error") eqn:Heq;
    [split; discriminate |].
  apply String.eqb_neq in Heq. split; [discriminate | exact Heq].
Qed.

(** X14: every entry [getTranscript] sends to the failure log is for the
    identifier of the request, is marked as a failure, and carries a label
    that is neither empty nor the generic ['Error']: the name of the fetch
    fault, or ['FetchError'] in its place. *)
Theorem getTranscript_failure_log_entries (input : Input) (env : Env)
    (s : Store) (id lang videoId label : string) (success : bool) :
  requestFor input id lang ->
  In (AnalyticsLog videoId success label)
     (trace (final (getTranscript (url input) env (language input)
                      (init s)))) ->
  videoId = id /\ success = false /\ label <> "" /\ label <> "Error" /\
  exists f, youtubeTranscript id lang = Thrown f /\
            label = analyticsErrorName f.
Proof.
  intros Hreq Hin.
  assert (Heff : In (AnalyticsLog videoId success label)
                   (effects (trace (final (getTranscript (url input) env
                                             (language input) (init s)))))).
  { apply filter_In. split; [exact Hin | reflexivity]. }
  clear Hin.
  assert (Hcounted : forall b, ~ In (AnalyticsLog videoId success label)
                                   (counted b id ++ [CacheRead id lang])).
  { intros [|]; simpl; intros Hx;
      repeat (destruct Hx as [Hx | Hx]; [discriminate Hx |]);
      exact Hx. }
  destruct (getTranscript_lookup_cases env s id lang)
    as [Hfetch | (_ & [(e & Hread & Hmark)
                      | [(c & Hholds & Hc & Hclass)
                        | (c & Hholds & Hmark)]])].
  - destruct (getTranscript_fetch_path input env s id lang Hreq Hfetch)
      as (_ & Ht & _).
    rewrite Ht in Heff. unfold failureLogged in Heff.
    apply in_app_or in Heff. destruct Heff as [Hx | Hx].
    { exfalso. apply (Hcounted (TRANSCRIPT_CACHE env)).
      apply in_or_app. left. exact Hx. }
    destruct (youtubeTranscript id lang) as [t | f],
      (TRANSCRIPT_CACHE env); simpl in Hx;
      repeat (destruct Hx as [Hx | Hx]; try discriminate Hx);
      try contradiction.
    injection Hx as <- <- <-.
    destruct (analyticsErrorName_label f) as [Hne Hng].
    repeat split; try assumption. exists f. auto.
  - destruct (getTranscript_marked_fault_thrown input env s id lang e Hreq
                Hread Hmark) as (_ & _ & Ht).
    rewrite Ht in Heff. exfalso. exact (Hcounted _ Heff).
  - destruct (getTranscript_hit_success input env s id lang c Hreq Hholds
                Hc Hclass) as (_ & _ & Ht).
    rewrite Ht in Heff. exfalso. exact (Hcounted _ Heff).
  - destruct (getTranscript_hit_marked input env s id lang c Hreq Hholds
                Hmark) as (_ & _ & Ht).
    rewrite Ht in Heff. exfalso. exact (Hcounted _ Heff).
Qed.

(** X13: in the handler a rejected counter promise is printed once by its
    rejection handler and a fulfilled one prints nothing; nothing else
    reaches the background log, on any path of a request with an
    identifier, and without [TRANSCRIPT_KV] the log stays empty. *)
Theorem handler_counter_rejections_printed (input : Input) (env : Env)
    (s : Store) (id lang : string) :
  requestFor input id lang ->
  background (final (getTranscriptHandler input env (init s)))
    = handlerCounterLines env id.
Proof.
  intros [Hid Hlang]. unfold handlerCounterLines, rejectionLines.
  enter Hid. rewrite Hlang.
  destruct (TRANSCRIPT_KV env); [counters env id |]; simpl.
  all: destruct (readFault env id lang) as [rf |]; simpl;
    [| destruct (s !! (id, lang)) as [[| c0 c1] |]]; simpl;
    try reflexivity.
  all: destruct (youtubeTranscript id lang); simpl.
  all: destruct (writeFault env id lang _ _); reflexivity.
Qed.

End Thrown.

(** ** The two models *)

Section Simulation.
Context `{UrlNormalize}.

Lemma simulates_lift {A} (m : M A) : simulates m (Any.lift m).
Proof. intros w. reflexivity. Qed.

Lemma simulates_done {A} (a : A) : simulates (ret a) (Any.done a).
Proof. intros w. reflexivity. Qed.

Lemma simulates_raise {A} (e : JsError) :
  simulates (@throw A e) (Any.raise (Any.ErrorObject e)).
Proof. intros w. reflexivity. Qed.

Lemma simulates_next {A B} (m : M A) (m' : Any.Task A) (k : A -> M B)
    (k' : A -> Any.Task B) :
  simulates m m' -> (forall a, simulates (k a) (k' a)) ->
  simulates (bind m k) (Any.next m' k').
Proof.
  intros Hm Hk w. unfold Any.next, Any.lift, bind. rewrite (Hm w).
  unfold Any.lift. destruct (m w) as [[a | e] w']; simpl;
    [apply Hk | reflexivity].
Qed.

Lemma simulates_next_done {A B} (m : M B) (a : A) (k' : A -> Any.Task B) :
  simulates m (k' a) -> simulates m (Any.next (Any.done a) k').
Proof. intros Hk w. apply Hk. Qed.

Lemma simulates_attempt {A} (b : M A) (b' : Any.Task A)
    (h : JsError -> M A) (h' : Any.JsValue -> Any.Task A) :
  simulates b b' -> (forall e, simulates (h e) (h' (Any.ErrorObject e))) ->
  simulates (tryCatch b h) (Any.attempt b' h').
Proof.
  intros Hb Hh w. unfold Any.attempt, Any.lift, tryCatch. rewrite (Hb w).
  unfold Any.lift. destruct (b w) as [[a | e] w']; simpl;
    [reflexivity | apply Hh].
Qed.

Lemma simulates_getCachedTranscript (env : Env) (id lang : string) :
  simulates (getCachedTranscript env id lang)
            (Any.getCachedTranscript (anyEnv env) id lang).
Proof.
  intros w. unfold Any.getCachedTranscript, getCachedTranscript, Any.next,
    Any.lift, bind, emit. simpl.
  destruct (readFault env id lang); reflexivity.
Qed.

Lemma simulates_setCachedTranscript (env : Env) (id lang txt : string)
    (isErr : bool) :
  simulates (setCachedTranscript env id lang txt isErr)
            (Any.setCachedTranscript (anyEnv env) id lang txt isErr).
Proof.
  intros w. unfold Any.setCachedTranscript, setCachedTranscript, Any.next,
    Any.lift, bind, emit. simpl.
  destruct (writeFault env id lang txt isErr); reflexivity.
Qed.

Lemma simulates_fetch (Y : YouTube) (classify : Any.JsValue -> string)
    (id lang : string) :
  simulates (fetchTranscriptFromYouTube id lang)
            (@Any.fetchTranscriptFromYouTube (anyYouTube Y classify) id lang).
Proof.
  intros w. unfold Any.fetchTranscriptFromYouTube,
    fetchTranscriptFromYouTube, Any.next, Any.lift, bind, emit, call. simpl.
  destruct (youtubeTranscript id lang); reflexivity.
Qed.

End Simulation.

Ltac simulates_step :=
  lazymatch goal with
  | |- simulates _ (Any.next (Any.done _) _) => apply simulates_next_done
  | |- simulates (bind _ _) (Any.next _ _) =>
      apply simulates_next; [| intros ?]
  | |- simulates (tryCatch _ _) (Any.attempt _ _) =>
      apply simulates_attempt;
      [| intros ?; cbn [Any.messageOf Any.messageStartsWith] ]
  | |- simulates (getCachedTranscript _ _ _) _ =>
      apply simulates_getCachedTranscript
  | |- simulates (setCachedTranscript _ _ _ _ _) _ =>
      apply simulates_setCachedTranscript
  | |- simulates (fetchTranscriptFromYouTube _ _) _ => apply simulates_fetch
  | |- simulates (ret _) (Any.done _) => apply simulates_done
  | |- simulates (throw _) (Any.raise _) => apply simulates_raise
  | |- simulates _ (Any.lift _) => apply simulates_lift
  | |- simulates (if ?b then _ else _) (if ?b then _ else _) => destruct b
  | |- simulates (match ?x with _ => _ end) (match ?x with _ => _ end) =>
      destruct x
  end.

Section Embedding.
Context `{UrlNormalize} (Y : YouTube) (classify : Any.JsValue -> string).

(** With faults that are [Error] objects, the handler over values of any
    kind is the handler of the first model. *)
Lemma handler_simulated (input : Input) (env : Env) :
  simulates (getTranscriptHandler input env)
            (@Any.getTranscriptHandler _ (anyYouTube Y classify) input
               (anyEnv env)).
Proof.
  unfold getTranscriptHandler, Any.getTranscriptHandler,
    Any.trackDailyRequests, Any.incrementVideoRequestCount,
    trackDailyRequests, incrementVideoRequestCount.
  cbv zeta.
  cbn [Any.TRANSCRIPT_KV Any.dailyCounter Any.videoCounter anyEnv
       Any.handleYouTubeErrors anyYouTube].
  repeat simulates_step.
Qed.

(** And so is [getTranscript]. *)
Lemma getTranscript_simulated (u : string) (lang : option string)
    (env : Env) :
  simulates (getTranscript u env lang)
            (@Any.getTranscript _ (anyYouTube Y classify) u (anyEnv env)
               lang).
Proof.
  unfold getTranscript, Any.getTranscript,
    Any.trackDailyRequests, Any.incrementVideoRequestCount,
    Any.logAnalyticsError, trackDailyRequests, incrementVideoRequestCount,
    logAnalyticsError.
  cbv zeta.
  cbn [Any.TRANSCRIPT_CACHE Any.dailyCounter Any.videoCounter
       Any.analyticsSink anyEnv Any.handleYouTubeErrors anyYouTube
       Any.errorNameOf].
  repeat simulates_step.
Qed.

(** X12: in a request in which the URL utilities do not throw and every
    fault of the cache and of the fetch is an [Error] object, what
    [getTranscript] throws is either an error it built itself with
    [new Error], whose message is one of the two validation messages, a text
    found in the store or the classifier's string for the failed fetch, or
    it is a fault of the cache read whose message starts with ['Error:'];
    a fault of the cache write and a rejection of a counter or of the
    failure log never reach the caller, and a fetch fault reaches it only
    through the classifier. *)
Theorem getTranscript_throws_only (input : Input) (env : Env) (s : Store)
    (v : Any.JsValue) :
  urlUtilitiesReturnFor (url input) ->
  fst (@Any.getTranscript _ (anyYouTube Y classify) (url input) (anyEnv env)
         (language input) (init s))
    = Any.Thr v ->
  (exists msg, v = Any.ErrorObject (newError msg) /\
     (msg = "Invalid YouTube URL provided." \/
      msg = "Could not extract video ID from the URL." \/
      (exists id lang, s !! (id, lang) = Some msg) \/
      (exists id lang f, youtubeTranscript id lang = Thrown f /\
                         msg = handleYouTubeErrors f))) \/
  (exists id lang e, v = Any.ErrorObject e /\
                     readFault env id lang = Some e /\
                     startsWith (message e) "Error:" = true).
Proof.
  intros Hurl Hthrown.
  rewrite (getTranscript_simulated (url input) (language input) env (init s))
    in Hthrown.
  unfold Any.lift in Hthrown. simpl in Hthrown.
  destruct (fst (getTranscript (url input) env (language input) (init s)))
    as [t | e] eqn:Hrun; simpl in Hthrown; [discriminate |].
  injection Hthrown as <-.
  destruct (getTranscript_thrown_cases input env s e Hurl Hrun)
    as [(msg & -> & Hmsg) | (id & lang & Hread & Hmark)].
  - left. exists msg. auto.
  - right. exists id, lang, e. auto.
Qed.

End Embedding.

(** ** The pipeline at concrete requests *)

Import SpecUrl Scenario.

Lemma shortLink_request : requestFor shortLink "abc123" "en".
Proof.
  split; [split; [reflexivity |] | reflexivity].
  exists (normalize "https://youtu.be/abc123").
  split; [reflexivity | split; [reflexivity | discriminate]].
Defined.

Section HelloWorld.
Context `{YouTube}.

(** C9: for the URL [https://youtu.be/abc123] with the language omitted,
    the request is one for the key (abc123, en); when the lookup of that
    key misses, the fetch returns [Hello world.] and the store takes the
    write, the handler returns [Hello world.] with the error flag false and
    the store then holds [Hello world.] under (abc123, en); and
    [getTranscript] with the language omitted is [getTranscript] with
    [en]. *)
Theorem short_link_scenario (env : Env) (s : Store) :
  cacheMisses env s "abc123" "en" ->
  youtubeTranscript "abc123" "en" = Returned "Hello world." ->
  writeFault env "abc123" "en" "Hello world." false = None ->
  let h := getTranscriptHandler shortLink env (init s) in
  requestFor shortLink "abc123" "en" /\
  outcome h = unflagged "Hello world." /\
  store (final h) !! ("abc123", "en") = Some "Hello world." /\
  getTranscript (url shortLink) env None
    = getTranscript (url shortLink) env (Some "en").
Proof.
  intros Hmiss Hfetch Hwrite h. subst h.
  destruct (handler_fetch_path shortLink env s "abc123" "en"
              shortLink_request (misses_handlerFetches _ _ _ _ Hmiss))
    as (Ho & _ & Hs & _).
  unfold fetched in *. rewrite Hfetch in *. simpl in *.
  rewrite Hwrite in Hs.
  split; [exact shortLink_request |].
  split; [exact Ho |].
  split; [rewrite Hs; apply lookup_insert_eq | reflexivity].
Qed.

End HelloWorld.

(** C1: at a cached ["No transcript available for this video."], which
    [isCachedError] takes for an error, [getTranscript] does not throw the
    cached text: it fetches, returns the fetched transcript and overwrites
    the cached entry. *)
Theorem getTranscript_refetches_cached_error :
  let cached := "No transcript available for this video." in
  let g := @getTranscript urlNormalize helloWorld (url shortLink) worker
             (language shortLink) (init {[ key := cached ]}) in
  isCachedError cached = true /\
  outcome g = Returned "Hello world." /\
  fetches (trace (final g)) = [key] /\
  store (final g) !! key = Some "Hello world.".
Proof. vm_compute. auto. Qed.

(** *** Where sentences of the specification fail *)

(** C2 as stated fails for the handler: a read fault whose message starts
    with ['Error:'] is not surfaced; the handler fetches and returns the
    transcript unflagged. *)
Lemma handler_swallows_marked_fault :
  let env := withReadFault worker (fun _ _ => Some storeDown) in
  let h := @getTranscriptHandler urlNormalize helloWorld shortLink env
             (init ∅) in
  readFault env "abc123" "en" = Some storeDown /\
  startsWith (message storeDown) "Error:" = true /\
  outcome h = unflagged "Hello world." /\
  outcome h <> flagged (message storeDown) /\
  outcome h <> Thrown storeDown /\
  fetches (trace (final h)) = [key].
Proof. vm_compute. repeat split; discriminate. Qed.

(** C3 as stated fails on a URL that is not accepted: the handler's text
    carries the marker, the message thrown by [getTranscript] does not. *)
Lemma conventions_differ_on_invalid_url :
  let h := @getTranscriptHandler urlNormalize helloWorld notAUrl worker
             (init ∅) in
  let g := @getTranscript urlNormalize helloWorld (url notAUrl) worker
             (language notAUrl) (init ∅) in
  outcome h = flagged "Error: Invalid YouTube URL provided." /\
  outcome g = Thrown (newError "Invalid YouTube URL provided.") /\
  ~ throwsMessage (outcome g) "Error: Invalid YouTube URL provided." /\
  ~ agree (outcome h) (outcome g).
Proof.
  assert (Hg : ~ throwsMessage
                 (Thrown (newError "Invalid YouTube URL provided."))
                 "Error: Invalid YouTube URL provided.").
  { intros (e & [= <-] & Hm). discriminate Hm. }
  repeat split; try exact Hg.
  intros Hagree.
  destruct (Hagree "Error: Invalid YouTube URL provided.") as [_ [Hf _]].
  apply Hg, Hf. reflexivity.
Qed.

(** C5 as stated fails for [getTranscript] without the [TRANSCRIPT_CACHE]
    binding: the lookup misses, the fetch fails, the classified string is
    thrown, and nothing is written to the cache. *)
Lemma classified_error_not_written_without_binding :
  let g := @getTranscript urlNormalize transcriptsDisabled (url shortLink)
             workerWithoutCache (language shortLink) (init ∅) in
  cacheMisses workerWithoutCache ∅ "abc123" "en" /\
  outcome g = Thrown (newError "Transcripts are disabled for this video.") /\
  cacheWrites (trace (final g)) = [] /\
  store (final g) !! key = None.
Proof. vm_compute. auto. Qed.

(** C6 as stated fails at the empty string: no error phrase matches it,
    and both functions take it for a miss and fetch. *)
Lemma empty_cached_string_refetched :
  let s : Store := {[ key := "" ]} in
  let h := @getTranscriptHandler urlNormalize helloWorld shortLink worker
             (init s) in
  let g := @getTranscript urlNormalize helloWorld (url shortLink) worker
             (language shortLink) (init s) in
  cacheHolds worker s "abc123" "en" "" /\
  isLikelyError "" = false /\ isCachedError "" = false /\
  outcome h = unflagged "Hello world." /\ outcome h <> unflagged "" /\
  fetches (trace (final h)) = [key] /\
  outcome g = Returned "Hello world." /\
  fetches (trace (final g)) = [key].
Proof. vm_compute. repeat split; discriminate. Qed.

(** C7 as stated fails for [getTranscript] without the [TRANSCRIPT_CACHE]
    binding: after a miss and a successful fetch no write is issued and
    the store stays empty. *)
Lemma outcome_not_written_without_binding :
  let g := @getTranscript urlNormalize helloWorld (url shortLink)
             workerWithoutCache (language shortLink) (init ∅) in
  cacheMisses workerWithoutCache ∅ "abc123" "en" /\
  outcome g = Returned "Hello world." /\
  cacheWrites (trace (final g)) = [] /\
  store (final g) !! key = None.
Proof. vm_compute. auto. Qed.

(** *** The theorems at concrete requests *)

Lemma invalid_url_no_effects_witness :
  isValidYouTubeUrl (url notAUrl) = Returned false /\
  @getTranscriptHandler urlNormalize helloWorld notAUrl worker (init ∅)
    = (flagged "Error: Invalid YouTube URL provided.", init ∅) /\
  @getTranscript urlNormalize helloWorld (url notAUrl) worker
      (language notAUrl) (init ∅)
    = (Thrown (newError "Invalid YouTube URL provided."), init ∅).
Proof.
  split; [reflexivity |].
  apply (@invalid_url_no_effects urlNormalize helloWorld notAUrl worker
           (init ∅)).
  reflexivity.
Defined.

Lemma shortLink_utilities_return : urlUtilitiesReturnFor (url shortLink).
Proof.
  exists true. split; [reflexivity | intros _].
  exists (normalize "https://youtu.be/abc123").
  split; [reflexivity |]. eexists. reflexivity.
Defined.


(** The same happens when the message of the fault is a [Symbol]. *)
Lemma handler_throws_on_unprintable_message :
  fst (@Any.getTranscriptHandler urlNormalize AnyScenario.greeting shortLink
         AnyScenario.symbolRead (init ∅))
    = Any.Thr (Any.typeError "Cannot convert a Symbol value to a string").
Proof. reflexivity. Qed.

(** A thrown string is caught by the handler, which goes on to fetch; in
    [getTranscript] the [startsWith] on its missing message throws. *)
Lemma thrown_string_on_read :
  fst (@Any.getTranscriptHandler urlNormalize AnyScenario.greeting shortLink
         AnyScenario.stringRead (init ∅))
    = Any.Ret (textResult "Hello world." false) /\
  fst (@Any.getTranscript urlNormalize AnyScenario.greeting (url shortLink)
         AnyScenario.stringRead (language shortLink) (init ∅))
    = Any.Thr (Any.typeError
                 "Cannot read properties of undefined (reading 'startsWith')").
Proof. split; reflexivity. Qed.


Lemma read_fault_policy_witness :
  let env := withReadFault worker (fun _ _ => Some (newError "KV timeout")) in
  let quiet := withReadFault env (fun _ _ => None) in
  let h := @getTranscriptHandler urlNormalize helloWorld shortLink env
             (init ∅) in
  let h0 := @getTranscriptHandler urlNormalize helloWorld shortLink quiet
              (init ∅) in
  outcome h = outcome h0 /\
  effects (trace (final h)) = effects (trace (final h0)) /\
  In (Console Error "Cache read error for abc123: KV timeout")
     (trace (final h)).
Proof.
  intros env quiet h h0.
  apply (@read_fault_policy urlNormalize helloWorld shortLink env ∅ ∅
           "abc123" "en" (newError "KV timeout")).
  - exact shortLink_request.
  - reflexivity.
  - reflexivity.
Defined.

Lemma conventions_agree_witness :
  comparableLookup worker ∅ "abc123" "en" = true /\
  agree
    (outcome (@getTranscriptHandler urlNormalize helloWorld shortLink worker
                (init ∅)))
    (outcome (@getTranscript urlNormalize helloWorld (url shortLink) worker
                (language shortLink) (init ∅))).
Proof.
  split; [reflexivity |].
  apply (@conventions_agree urlNormalize helloWorld shortLink worker ∅
           "abc123" "en").
  - exact shortLink_request.
  - reflexivity.
Defined.

Lemma fetch_failure_classified_witness :
  let h := @getTranscriptHandler urlNormalize transcriptsDisabled shortLink
             worker (init ∅) in
  let g := @getTranscript urlNormalize transcriptsDisabled (url shortLink)
             worker (language shortLink) (init ∅) in
  let txt := "Transcripts are disabled for this video." in
  (outcome h = flagged txt /\
   cacheWrites (trace (final h)) = [("abc123", "en", txt, true)]) /\
  (outcome g = Thrown (newError txt) /\
   cacheWrites (trace (final g)) = [("abc123", "en", txt, true)]).
Proof.
  intros h g txt.
  apply (@fetch_failure_classified urlNormalize transcriptsDisabled shortLink
           worker ∅ "abc123" "en"
           {| name := "TranscriptsDisabled";
              message := "Transcript is disabled on this video" |}).
  - exact shortLink_request.
  - split; [reflexivity | left; reflexivity].
  - reflexivity.
Defined.

Lemma cached_success_returned_witness :
  let s : Store := {[ key := "Hello world." ]} in
  let h := @getTranscriptHandler urlNormalize transcriptsDisabled shortLink
             worker (init s) in
  let g := @getTranscript urlNormalize transcriptsDisabled (url shortLink)
             worker (language shortLink) (init s) in
  (outcome h = unflagged "Hello world." /\ store (final h) = s /\
   effects (trace (final h))
     = [TrackDaily; IncrementVideo "abc123"; CacheRead "abc123" "en"]) /\
  (outcome g = Returned "Hello world." /\ store (final g) = s /\
   effects (trace (final g))
     = [TrackDaily; IncrementVideo "abc123"; CacheRead "abc123" "en"]).
Proof.
  intros s h g.
  apply (@cached_success_returned urlNormalize transcriptsDisabled shortLink
           worker s "abc123" "en" "Hello world.").
  - exact shortLink_request.
  - split; [reflexivity | vm_compute; reflexivity].
  - discriminate.
  - reflexivity.
  - reflexivity.
Defined.

Lemma cache_write_best_effort_witness :
  let env := withWriteFault worker (fun _ _ _ _ => Some storeDown) in
  let h := @getTranscriptHandler urlNormalize helloWorld shortLink env
             (init ∅) in
  let g := @getTranscript urlNormalize helloWorld (url shortLink) env
             (language shortLink) (init ∅) in
  (outcome h = unflagged "Hello world." /\
   cacheWrites (trace (final h)) = [("abc123", "en", "Hello world.", false)] /\
   store (final h) = ∅) /\
  (outcome g = Returned "Hello world." /\
   cacheWrites (trace (final g)) = [("abc123", "en", "Hello world.", false)] /\
   store (final g) = ∅).
Proof.
  intros env h g.
  apply (@cache_write_best_effort urlNormalize helloWorld shortLink env ∅
           "abc123" "en").
  - exact shortLink_request.
  - split; [reflexivity | left; reflexivity].
Defined.

Lemma short_link_scenario_witness :
  let h := @getTranscriptHandler urlNormalize helloWorld shortLink worker
             (init ∅) in
  requestFor shortLink "abc123" "en" /\
  outcome h = unflagged "Hello world." /\
  store (final h) !! ("abc123", "en") = Some "Hello world." /\
  @getTranscript urlNormalize helloWorld (url shortLink) worker None
    = @getTranscript urlNormalize helloWorld (url shortLink) worker
        (Some "en").
Proof.
  intros h.
  apply (@short_link_scenario helloWorld worker ∅).
  - split; [reflexivity | left; reflexivity].
  - reflexivity.
  - reflexivity.
Defined.

(** *** The further theorems at concrete requests *)

Lemma missing_identifier_no_effects_witness :
  @getTranscriptHandler EdgeUrl.accepting helloWorld EdgeUrl.noIdentifier
      worker (init ∅)
    = (flagged "Error: Could not extract video ID from the URL.", init ∅) /\
  @getTranscript EdgeUrl.accepting helloWorld (url EdgeUrl.noIdentifier)
      worker (language EdgeUrl.noIdentifier) (init ∅)
    = (Thrown (newError "Could not extract video ID from the URL."), init ∅).
Proof.
  apply (@missing_identifier_no_effects EdgeUrl.accepting helloWorld
           EdgeUrl.noIdentifier worker (init ∅)).
  split; [reflexivity |].
  exists "https://example.com/". split; [reflexivity | left; reflexivity].
Defined.

Lemma url_utility_throw_propagates_witness :
  @getTranscriptHandler EdgeUrl.throwing helloWorld notAUrl worker (init ∅)
    = (Thrown (newError "Invalid URL"), init ∅) /\
  @getTranscript EdgeUrl.throwing helloWorld (url notAUrl) worker
      (language notAUrl) (init ∅)
    = (Thrown (newError "Invalid URL"), init ∅).
Proof.
  apply (@url_utility_throw_propagates EdgeUrl.throwing helloWorld notAUrl
           worker (init ∅) (newError "Invalid URL")).
  left. reflexivity.
Defined.

Lemma handler_effects_shape_witness :
  effects (trace (final (@getTranscriptHandler urlNormalize helloWorld
                           shortLink worker (init ∅))))
    = [TrackDaily; IncrementVideo "abc123"; CacheRead "abc123" "en";
       Fetch "abc123" "en"; CacheWrite "abc123" "en" "Hello world." false].
Proof.
  rewrite (@handler_effects_shape urlNormalize helloWorld shortLink worker ∅
             "abc123" "en" shortLink_request).
  reflexivity.
Defined.

Lemma getTranscript_effects_shape_witness :
  effects (trace (final (@getTranscript urlNormalize transcriptsDisabled
                           (url shortLink) worker (language shortLink)
                           (init ∅))))
    = [TrackDaily; IncrementVideo "abc123"; CacheRead "abc123" "en";
       Fetch "abc123" "en";
       AnalyticsLog "abc123" false "TranscriptsDisabled";
       CacheWrite "abc123" "en" "Transcripts are disabled for this video."
         true].
Proof.
  rewrite (@getTranscript_effects_shape urlNormalize transcriptsDisabled
             shortLink worker ∅ "abc123" "en" shortLink_request).
  reflexivity.
Defined.

Lemma request_touches_only_its_key_witness :
  let s : Store := {[ EdgeUrl.otherKey := "Kept." ]} in
  store (final (@getTranscriptHandler urlNormalize helloWorld shortLink
                  worker (init s))) !! EdgeUrl.otherKey
    = s !! EdgeUrl.otherKey /\
  store (final (@getTranscript urlNormalize helloWorld (url shortLink)
                  worker (language shortLink) (init s))) !! EdgeUrl.otherKey
    = s !! EdgeUrl.otherKey.
Proof.
  intros s.
  apply (@request_touches_only_its_key urlNormalize helloWorld shortLink
           worker s "abc123" "en" EdgeUrl.otherKey).
  - exact shortLink_request.
  - discriminate.
Defined.

Lemma handler_result_is_cached_witness :
  let h := @getTranscriptHandler urlNormalize transcriptsDisabled shortLink
             worker (init ∅) in
  exists (t : string) (flag : bool),
    outcome h = Returned (textResult t flag) /\
    store (final h) !! ("abc123", "en") = Some t.
Proof.
  intros h.
  apply (@handler_result_is_cached urlNormalize transcriptsDisabled
           shortLink worker ∅ "abc123" "en").
  - exact shortLink_request.
  - reflexivity.
Defined.

Lemma getTranscript_result_is_cached_witness :
  let g := @getTranscript urlNormalize transcriptsDisabled (url shortLink)
             worker (language shortLink) (init ∅) in
  exists t : string,
    (outcome g = Returned t \/ outcome g = Thrown (newError t)) /\
    store (final g) !! ("abc123", "en") = Some t.
Proof.
  intros g.
  apply (@getTranscript_result_is_cached urlNormalize transcriptsDisabled
           shortLink worker ∅ "abc123" "en").
  - exact shortLink_request.
  - reflexivity.
  - reflexivity.
  - reflexivity.
Defined.

Lemma handler_second_request_from_cache_witness :
  let txt := "No transcript needed: the speaker reads the slides aloud." in
  let first := @getTranscriptHandler urlNormalize
                 EdgeUrl.misleadingTranscript shortLink worker (init ∅) in
  let second := @getTranscriptHandler urlNormalize
                  EdgeUrl.misleadingTranscript shortLink worker
                  (init (store (final first))) in
  outcome first = unflagged txt /\
  outcome second = flagged txt /\
  effects (trace (final second))
    = [TrackDaily; IncrementVideo "abc123"; CacheRead "abc123" "en"] /\
  store (final second) = store (final first).
Proof.
  intros txt first second.
  apply (@handler_second_request_from_cache urlNormalize
           EdgeUrl.misleadingTranscript shortLink worker ∅ "abc123" "en").
  - exact shortLink_request.
  - split; [reflexivity | left; reflexivity].
  - discriminate.
  - reflexivity.
Defined.

Lemma getTranscript_second_request_from_cache_witness :
  let first := @getTranscript urlNormalize helloWorld (url shortLink) worker
                 (language shortLink) (init ∅) in
  let second := @getTranscript urlNormalize helloWorld (url shortLink)
                  worker (language shortLink) (init (store (final first))) in
  outcome first = Returned "Hello world." /\
  outcome second = Returned "Hello world." /\
  effects (trace (final second))
    = [TrackDaily; IncrementVideo "abc123"; CacheRead "abc123" "en"] /\
  store (final second) = store (final first).
Proof.
  intros first second.
  apply (@getTranscript_second_request_from_cache urlNormalize helloWorld
           shortLink worker ∅ "abc123" "en" "Hello world.").
  - exact shortLink_request.
  - split; [reflexivity | left; reflexivity].
  - reflexivity.
  - reflexivity.
  - discriminate.
  - reflexivity.
  - reflexivity.
Defined.

Lemma getTranscript_known_failure_not_refetched_witness :
  let first := @getTranscript urlNormalize EdgeUrl.socketError
                 (url shortLink) worker (language shortLink) (init ∅) in
  let second := @getTranscript urlNormalize EdgeUrl.socketError
                  (url shortLink) worker (language shortLink)
                  (init (store (final first))) in
  outcome first = Thrown (newError "Error: socket hang up") /\
  outcome second = Thrown (newError "Error: socket hang up") /\
  effects (trace (final second))
    = [TrackDaily; IncrementVideo "abc123"; CacheRead "abc123" "en"] /\
  store (final second) = store (final first).
Proof.
  intros first second.
  apply (@getTranscript_known_failure_not_refetched urlNormalize
           EdgeUrl.socketError shortLink worker ∅ "abc123" "en"
           (newError "socket hang up")).
  - exact shortLink_request.
  - split; [reflexivity | left; reflexivity].
  - reflexivity.
  - reflexivity.
  - reflexivity.
  - reflexivity.
Defined.

Lemma getTranscript_without_binding_witness :
  let g := @getTranscript urlNormalize transcriptsDisabled (url shortLink)
             workerWithoutCache (language shortLink) (init ∅) in
  store (final g) = ∅ /\
  effects (trace (final g)) = [CacheRead "abc123" "en"; Fetch "abc123" "en"].
Proof.
  intros g.
  destruct (@getTranscript_without_binding urlNormalize transcriptsDisabled
              shortLink workerWithoutCache ∅ "abc123" "en"
              shortLink_request eq_refl) as [Hs Ht].
  split; [exact Hs | etransitivity; [exact Ht | reflexivity]].
Defined.

Lemma getTranscript_throws_only_witness :
  let v := Any.ErrorObject
             (newError "Transcripts are disabled for this video.") in
  (exists msg, v = Any.ErrorObject (newError msg) /\
     (msg = "Invalid YouTube URL provided." \/
      msg = "Could not extract video ID from the URL." \/
      (exists id lang, (∅ : Store) !! (id, lang) = Some msg) \/
      (exists id lang f,
          @youtubeTranscript transcriptsDisabled id lang = Thrown f /\
          msg = @handleYouTubeErrors transcriptsDisabled f))) \/
  (exists id lang e, v = Any.ErrorObject e /\
                     readFault worker id lang = Some e /\
                     startsWith (message e) "Error:" = true).
Proof.
  intros v.
  apply (@getTranscript_throws_only urlNormalize transcriptsDisabled
           (fun _ => "Error: unknown failure") shortLink worker ∅ v).
  - exact shortLink_utilities_return.
  - reflexivity.
Defined.

Lemma handler_counter_rejections_printed_witness :
  background (final (@getTranscriptHandler urlNormalize helloWorld shortLink
                       EdgeUrl.counterOutage (init ∅)))
    = ["KV put failed"; "KV put failed"].
Proof.
  apply (@handler_counter_rejections_printed urlNormalize helloWorld
           shortLink EdgeUrl.counterOutage ∅ "abc123" "en").
  exact shortLink_request.
Defined.

Lemma getTranscript_failure_log_entries_witness :
  In (AnalyticsLog "abc123" false "TranscriptsDisabled")
     (trace (final (@getTranscript urlNormalize transcriptsDisabled
                      (url shortLink) worker (language shortLink)
                      (init ∅)))) /\
  ("abc123" = "abc123" /\ false = false /\
   "TranscriptsDisabled" <> "" /\ "TranscriptsDisabled" <> "Error" /\
   exists f, @youtubeTranscript transcriptsDisabled "abc123" "en" = Thrown f /\
             "TranscriptsDisabled" = analyticsErrorName f).
Proof.
  assert (Hin : In (AnalyticsLog "abc123" false "TranscriptsDisabled")
                  (trace (final (@getTranscript urlNormalize
                                   transcriptsDisabled (url shortLink) worker
                                   (language shortLink) (init ∅)))))
    by (vm_compute; tauto).
  split; [exact Hin |].
  apply (@getTranscript_failure_log_entries urlNormalize transcriptsDisabled
           shortLink worker ∅ "abc123" "en" "abc123" "TranscriptsDisabled"
           false).
  - exact shortLink_request.
  - exact Hin.
Defined.
